(** * Sports-analytics warehouse transform (src/TL.py): a shallow embedding

    The development follows [transform_data] of [src/TL.py]: the pandas
    tables are association lists of columns, Python exceptions are an error
    type, and the five caller-owned input tables live in a store that the
    transform updates in place, as the Python code does. *)

From Stdlib Require Import List String Ascii ZArith QArith Bool Lia Lqa FinFun.
From Stdlib Require Import Permutation.
Import ListNotations.

Local Open Scope string_scope.
Local Open Scope Z_scope.

(** ** Cells, exceptions and results *)

(** A cell of a table.  [VNull] is pandas' missing value of an object or
    numeric column ([None], [NaN]); [VNaT] is the missing timestamp;
    [VTime t] is a [Timestamp], [t] nanoseconds after the epoch. *)
Inductive value : Type :=
| VNull
| VNaT
| VStr (s : string)
| VInt (n : Z)
| VTime (t : Z).

(** The Python exceptions the transform can raise. *)
Inductive exn : Type :=
| TypeError
| KeyError (column : string)
| ValueError
| IndexError
| AttributeError
| InvalidIndexError.

Inductive result (A : Type) : Type :=
| Ok (a : A)
| Raise (e : exn).
Arguments Ok {A} a.
Arguments Raise {A} e.

Definition bind {A B : Type} (m : result A) (k : A -> result B) : result B :=
  match m with
  | Ok a => k a
  | Raise e => Raise e
  end.

Notation "x <- m ;; k" := (bind m (fun x => k))
  (at level 61, m at next level, right associativity).

Definition value_eq_dec (v w : value) : {v = w} + {v <> w}.
Proof.
  decide equality; try apply Z.eq_dec; apply string_dec.
Defined.

Definition value_eqb (v w : value) : bool :=
  if value_eq_dec v w then true else false.

(** [pd.isna]. *)
Definition isna (v : value) : bool :=
  match v with
  | VNull | VNaT => true
  | _ => false
  end.

(** ** Tables *)

(** A [DataFrame]: the length of its index and its columns in their order. *)
Record DataFrame : Type := mkDF {
  index_len : nat;
  columns : list (string * list value)
}.

Fixpoint lookup_col (c : string) (cols : list (string * list value))
  : option (list value) :=
  match cols with
  | [] => None
  | (c', l) :: rest => if String.eqb c c' then Some l else lookup_col c rest
  end.

(** [df[c]]: a missing column raises [KeyError]. *)
Definition getitem (df : DataFrame) (c : string) : result (list value) :=
  match lookup_col c (columns df) with
  | Some l => Ok l
  | None => Raise (KeyError c)
  end.

Fixpoint replace_col (c : string) (l : list value)
  (cols : list (string * list value)) : list (string * list value) :=
  match cols with
  | [] => [(c, l)]
  | (c', l') :: rest =>
      if String.eqb c c' then (c, l) :: rest
      else (c', l') :: replace_col c l rest
  end.

(** The frame with column [c] set to [l]: an existing column is overwritten
    where it stands, a new one is appended. *)
Definition with_col (df : DataFrame) (c : string) (l : list value)
  : DataFrame :=
  mkDF (index_len df) (replace_col c l (columns df)).

(** [df[c] = values]: a length that differs from the index raises. *)
Definition setitem (df : DataFrame) (c : string) (l : list value)
  : result DataFrame :=
  if Nat.eqb (List.length l) (index_len df)
  then Ok (with_col df c l)
  else Raise ValueError.

(** [df[c] = scalar]: the scalar is broadcast over the index. *)
Definition setitem_scalar (df : DataFrame) (c : string) (v : value)
  : DataFrame :=
  with_col df c (repeat v (index_len df)).

(** ** Fuzzy entity resolution (lines 78-88) *)

Section Resolver.

(** [fuzz.token_set_ratio], the similarity scorer handed to
    [process.extractOne].  Its value is a float; every finite float is a
    rational. *)
Variable scorer : string -> string -> Q.

Definition optimal_score : Q := 100.
Definition worst_score : Q := 0.

Definition Qlt_bool (a b : Q) : bool := negb (Qle_bool b a).

(** One turn of the loop of [process.extractOne]: the running best is
    replaced only by a strictly better score, so the earliest of equally
    good choices stays. *)
Definition keep_best (best : option (string * Q * nat))
  (choice : string) (score : Q) (key : nat) : option (string * Q * nat) :=
  match best with
  | None =>
      if Qle_bool worst_score score then Some (choice, score, key) else None
  | Some (_, s, _) =>
      if Qlt_bool s score then Some (choice, score, key) else best
  end.

(** The loop of [process.extractOne] over the choices: missing choices are
    skipped, the scan stops at the first choice with the optimal score. *)
Fixpoint extractOne_loop (query : string) (choices : list value) (key : nat)
  (best : option (string * Q * nat))
  : result (option (string * Q * nat)) :=
  match choices with
  | [] => Ok best
  | VStr choice :: rest =>
      let score := scorer query choice in
      let best' := keep_best best choice score key in
      if Qeq_bool score optimal_score then Ok best'
      else extractOne_loop query rest (S key) best'
  | VNull :: rest | VNaT :: rest => extractOne_loop query rest (S key) best
  | _ :: _ => Raise TypeError
  end.

(** [process.extractOne(query, choices, scorer=...)]: the best
    [(choice, score, key)], or [None] when the query is missing or no
    choice was scored. *)
Definition extractOne (query : value) (choices : list value)
  : result (option (string * Q * nat)) :=
  match query with
  | VNull | VNaT => Ok None
  | VStr q => extractOne_loop q choices 0 None
  | _ => Raise TypeError
  end.

(** Lines 78-80.  Unpacking [None] into [match, score, _] raises
    [TypeError]. *)
Definition fuzzy_match (name : value) (choices : list value) (threshold : Q)
  : result (option string) :=
  r <- extractOne name choices ;;
  match r with
  | None => Raise TypeError
  | Some (match_, score, _) =>
      Ok (if Qle_bool threshold score then Some match_ else None)
  end.

Definition default_threshold : Q := 85.

(** [dim_df.loc[dim_df[name_col] == matched, id_col].values]. *)
Fixpoint loc_eq (names ids : list value) (matched : value) : list value :=
  match names, ids with
  | n :: names', i :: ids' =>
      if value_eqb n matched then i :: loc_eq names' ids' matched
      else loc_eq names' ids' matched
  | _, _ => []
  end.

(** Truth value of a Python string. *)
Definition truthy (s : string) : bool :=
  match s with
  | EmptyString => false
  | _ => true
  end.

(** Lines 82-88.  The result is the key cell, or [VNull] for [None]. *)
Definition map_name_to_id (name : value) (dim_df : DataFrame)
  (name_col id_col : string) : result value :=
  if isna name then Ok VNull
  else
    names <- getitem dim_df name_col ;;
    matched <- fuzzy_match name names default_threshold ;;
    match matched with
    | Some m =>
        if truthy m then
          names' <- getitem dim_df name_col ;;
          ids <- getitem dim_df id_col ;;
          match loc_eq names' ids (VStr m) with
          | [] => Raise IndexError
          | k :: _ => Ok k
          end
        else Ok VNull
    | None => Ok VNull
    end.

End Resolver.

(** ** The scorer: [rapidfuzz.fuzz.token_set_ratio] *)

(** Whitespace as [str.split()] sees it on an ASCII string. *)
Definition is_space (c : ascii) : bool :=
  let n := nat_of_ascii c in
  ((9 <=? n)%nat && (n <=? 13)%nat) || ((28 <=? n)%nat && (n <=? 32)%nat).

(** [s.split()]: the maximal runs of characters that are not whitespace;
    [cur] is the token being read. *)
Fixpoint split_from (s cur : string) : list string :=
  match s with
  | EmptyString => if truthy cur then [cur] else []
  | String c rest =>
      if is_space c
      then (if truthy cur then cur :: split_from rest "" else split_from rest "")
      else split_from rest (cur ++ String c "")
  end.

Definition split (s : string) : list string := split_from s "".

Definition mem (t : string) (l : list string) : bool :=
  existsb (String.eqb t) l.

(** [tokens_a.intersection(tokens_b)] and [tokens_a.difference(tokens_b)];
    only their emptiness is looked at, so duplicates do not matter. *)
Definition intersection (a b : list string) : list string :=
  filter (fun t => mem t b) a.

Definition difference (a b : list string) : list string :=
  filter (fun t => negb (mem t b)) a.

Definition is_empty {A : Type} (l : list A) : bool :=
  match l with
  | [] => true
  | _ => false
  end.

(** [fuzz.token_set_ratio(s1, s2)] up to its last branch: 0 when a string is
    empty or has no token, 100 when the strings share a token and the tokens
    of one are all tokens of the other.  What is left is a ratio computed in
    floating point from the sorted tokens; it is the parameter [interpolated]. *)
Definition token_set_ratio (interpolated : string -> string -> Q)
  (s1 s2 : string) : Q :=
  if negb (truthy s1) || negb (truthy s2) then 0%Q
  else
    let tokens_a := split s1 in
    let tokens_b := split s2 in
    if is_empty tokens_a || is_empty tokens_b then 0%Q
    else
      let intersect := intersection tokens_a tokens_b in
      let diff_ab := difference tokens_a tokens_b in
      let diff_ba := difference tokens_b tokens_a in
      if negb (is_empty intersect) && (is_empty diff_ab || is_empty diff_ba)
      then 100%Q
      else interpolated s1 s2.

(** ** Calendar *)

Definition day_ns : Z := 86400 * 1000000000.

(** The day number of a timestamp (days after 1970-01-01, rounded down). *)
Definition days_of (t : Z) : Z := t / day_ns.

(** Year, month and day of a day number in the proleptic Gregorian
    calendar. *)
Definition civil_of_days (days : Z) : Z * Z * Z :=
  let z := days + 719468 in
  let era := z / 146097 in
  let doe := z - era * 146097 in
  let yoe := (doe - doe / 1460 + doe / 36524 - doe / 146096) / 365 in
  let doy := doe - (365 * yoe + yoe / 4 - yoe / 100) in
  let mp := (5 * doy + 2) / 153 in
  let d := doy - (153 * mp + 2) / 5 + 1 in
  let m := if mp <? 10 then mp + 3 else mp - 9 in
  let y := yoe + era * 400 in
  (if m <=? 2 then y + 1 else y, m, d).

(** The day number of a civil date. *)
Definition days_of_civil (y m d : Z) : Z :=
  let y' := if m <=? 2 then y - 1 else y in
  let era := y' / 400 in
  let yoe := y' - era * 400 in
  let mp := if m <=? 2 then m + 9 else m - 3 in
  let doy := (153 * mp + 2) / 5 + d - 1 in
  let doe := yoe * 365 + yoe / 4 - yoe / 100 + doy in
  era * 146097 + doe - 719468.

Definition year (t : Z) : Z := fst (fst (civil_of_days (days_of t))).
Definition month (t : Z) : Z := snd (fst (civil_of_days (days_of t))).
Definition day (t : Z) : Z := snd (civil_of_days (days_of t)).
Definition quarter (t : Z) : Z := (month t - 1) / 3 + 1.

(** [strftime('%Y%m%d')] read as an integer. *)
Definition yyyymmdd (t : Z) : Z := year t * 10000 + month t * 100 + day t.

(** ISO weekday, Monday = 1. *)
Definition isoweekday (days : Z) : Z := (days + 3) mod 7 + 1.

Definition weeks_in_year (y : Z) : Z :=
  let p := fun y => (y + y / 4 - y / 100 + y / 400) mod 7 in
  if (p y =? 4) || (p (y - 1) =? 3) then 53 else 52.

(** [isocalendar().week]. *)
Definition isoweek (t : Z) : Z :=
  let days := days_of t in
  let y := year t in
  let ordinal := days - days_of_civil y 1 1 + 1 in
  let w := (ordinal - isoweekday days + 10) / 7 in
  if w <? 1 then weeks_in_year (y - 1)
  else if weeks_in_year y <? w then 1
  else w.

(** ** Series and frame operations *)

(** [Series.dropna()]. *)
Definition dropna (l : list value) : list value :=
  filter (fun v => negb (isna v)) l.

(** [Series.unique()]: the distinct values in order of first appearance. *)
Fixpoint unique_from (seen l : list value) : list value :=
  match l with
  | [] => []
  | v :: rest =>
      if existsb (value_eqb v) seen then unique_from seen rest
      else v :: unique_from (v :: seen) rest
  end.

Definition unique (l : list value) : list value := unique_from [] l.

(** [range(lo, hi)]. *)
Definition py_range (lo hi : Z) : list Z :=
  map (fun i => lo + Z.of_nat i) (seq 0 (Z.to_nat (hi - lo))).

(** Lines 66-67 (and 72-73, 75-76): the one-column frame of the canonical
    names, then the key column [range(1, len(dim) + 1)]. *)
Definition dimension_table (name_col id_col : string) (names : list value)
  : result DataFrame :=
  let dim := mkDF (List.length names) [(name_col, names)] in
  setitem dim id_col (map VInt (py_range 1 (Z.of_nat (index_len dim) + 1))).

(** [Series.min()] and [Series.max()] of a datetime column: missing cells are
    skipped, and the result is [NaT] when nothing is left. *)
Fixpoint series_min (l : list value) : value :=
  match l with
  | [] => VNaT
  | VTime t :: rest =>
      match series_min rest with
      | VTime m => VTime (Z.min t m)
      | _ => VTime t
      end
  | _ :: rest => series_min rest
  end.

Fixpoint series_max (l : list value) : value :=
  match l with
  | [] => VNaT
  | VTime t :: rest =>
      match series_max rest with
      | VTime m => VTime (Z.max t m)
      | _ => VTime t
      end
  | _ :: rest => series_max rest
  end.

(** [a < b] on timestamps: a comparison with [NaT] is false. *)
Definition time_ltb (a b : value) : bool :=
  match a, b with
  | VTime x, VTime y => x <? y
  | _, _ => false
  end.

(** Python's [min(a, b)] and [max(a, b)]: the second argument wins only when
    it compares strictly below (above) the first. *)
Definition py_min (a b : value) : value := if time_ltb b a then b else a.
Definition py_max (a b : value) : value := if time_ltb a b then b else a.

(** [n] timestamps one day apart, from [start] on. *)
Definition daily (start : Z) (n : nat) : list Z :=
  map (fun k => start + Z.of_nat k * day_ns) (seq 0 n).

(** [pd.date_range(start=..., end=...)], daily: [start], [start] + 1 day,
    ... up to [end]; [NaT] at either end raises [ValueError]. *)
Definition date_range (start end_ : value) : result (list Z) :=
  match start, end_ with
  | VTime s, VTime e =>
      if s <=? e
      then Ok (daily s (Z.to_nat ((e - s) / day_ns + 1)))
      else Ok []
  | _, _ => Raise ValueError
  end.

(** Lines 53-61. *)
Definition dim_date_frame (range : list Z) : DataFrame :=
  mkDF (List.length range)
    [("date", map VTime range);
     ("date_key", map (fun t => VInt (yyyymmdd t)) range);
     ("year", map (fun t => VInt (year t)) range);
     ("month", map (fun t => VInt (month t)) range);
     ("day", map (fun t => VInt (day t)) range);
     ("week", map (fun t => VInt (isoweek t)) range);
     ("quarter", map (fun t => VInt (quarter t)) range)].

(** [col.dt.strftime('%Y%m%d').astype(int)]: [NaT] formats to [NaN], which
    [astype(int)] refuses; [.dt] exists on datetime columns only. *)
Fixpoint strftime_int (l : list value) : result (list value) :=
  match l with
  | [] => Ok []
  | VTime t :: rest =>
      ks <- strftime_int rest ;; Ok (VInt (yyyymmdd t) :: ks)
  | VNaT :: rest => _ <- strftime_int rest ;; Raise ValueError
  | _ :: _ => Raise AttributeError
  end.

(** The column, or missing cells where the frame has no such column. *)
Definition col_or_null (df : DataFrame) (c : string) : list value :=
  match lookup_col c (columns df) with
  | Some l => l
  | None => repeat VNull (index_len df)
  end.

Definition union_cols (a b : DataFrame) : list string :=
  (map fst (columns a)
   ++ filter (fun c => negb (mem c (map fst (columns a))))
        (map fst (columns b)))%list.

(** Two frames reindexed on the union of their labels and stacked: a column
    that a frame lacks is filled with missing cells. *)
Definition reindexed (a b : DataFrame) : DataFrame :=
  mkDF (index_len a + index_len b)
    (map (fun c => (c, (col_or_null a c ++ col_or_null b c)%list))
       (union_cols a b)).

(** Two frames with the same labels, stacked column by column. *)
Fixpoint stack_cols (a b : list (string * list value))
  : list (string * list value) :=
  match a, b with
  | (c, l) :: a', (_, l') :: b' => (c, (l ++ l')%list) :: stack_cols a' b'
  | _, _ => []
  end.

(** A label that occurs twice. *)
Fixpoint repeats (l : list string) : bool :=
  match l with
  | [] => false
  | c :: rest => mem c rest || repeats rest
  end.

(** [pd.concat([a, b], ignore_index=True)].  Frames with equal labels are
    stacked as they are.  Otherwise each frame is reindexed on the union of
    the labels, which pandas refuses for a frame that repeats a label
    ([InvalidIndexError]: reindexing needs uniquely valued labels). *)
Definition concat (a b : DataFrame) : result DataFrame :=
  if list_eq_dec string_dec (map fst (columns a)) (map fst (columns b))
  then Ok (mkDF (index_len a + index_len b)
             (stack_cols (columns a) (columns b)))
  else if repeats (map fst (columns a)) || repeats (map fst (columns b))
  then Raise InvalidIndexError
  else Ok (reindexed a b).

(** [df[[c1; ...; cn]]]: a new frame of the named columns. *)
Fixpoint select_cols (df : DataFrame) (cs : list string)
  : result (list (string * list value)) :=
  match cs with
  | [] => Ok []
  | c :: rest =>
      l <- getitem df c ;;
      ls <- select_cols df rest ;;
      Ok ((c, l) :: ls)
  end.

Definition select (df : DataFrame) (cs : list string) : result DataFrame :=
  cols <- select_cols df cs ;; Ok (mkDF (index_len df) cols).

Definition row (cols : list (string * list value)) (i : nat) : list value :=
  map (fun cl => nth i (snd cl) VNull) cols.

Definition row_eqb (r s : list value) : bool :=
  if list_eq_dec value_eq_dec r s then true else false.

(** The positions of the rows that no earlier row equals. *)
Fixpoint first_rows (seen : list (list value)) (rows : list (nat * list value))
  : list nat :=
  match rows with
  | [] => []
  | (i, r) :: rest =>
      if existsb (row_eqb r) seen then first_rows seen rest
      else i :: first_rows (r :: seen) rest
  end.

(** [df.drop_duplicates()]. *)
Definition drop_duplicates (df : DataFrame) : DataFrame :=
  let idx := seq 0 (index_len df) in
  let keep := first_rows [] (map (fun i => (i, row (columns df) i)) idx) in
  mkDF (List.length keep)
    (map (fun cl => (fst cl, map (fun i => nth i (snd cl) VNull) keep))
       (columns df)).

(** [df.rename(columns={old: new})]. *)
Definition rename (df : DataFrame) (old new : string) : DataFrame :=
  mkDF (index_len df)
    (map (fun cl => (if String.eqb (fst cl) old then new else fst cl, snd cl))
       (columns df)).

(** [Series.apply(f)] for a function that may raise. *)
Fixpoint apply (f : value -> result value) (l : list value)
  : result (list value) :=
  match l with
  | [] => Ok []
  | v :: rest => w <- f v ;; ws <- apply f rest ;; Ok (w :: ws)
  end.

(** ** The store of tables *)

(** Tables are Python objects: a variable holds a reference, and
    [df[c] = ...] writes through it.  The store lists the live tables; a
    reference is a position in it. *)
Definition ref : Type := nat.
Definition store : Type := list DataFrame.

Definition M (A : Type) : Type := store -> result (A * store).

Definition ret {A : Type} (a : A) : M A := fun h => Ok (a, h).

Definition bindM {A B : Type} (m : M A) (k : A -> M B) : M B :=
  fun h =>
    match m h with
    | Ok (a, h') => k a h'
    | Raise e => Raise e
    end.

Notation "x <~ m ;; k" := (bindM m (fun x => k))
  (at level 61, m at next level, right associativity).

Definition lift {A : Type} (r : result A) : M A :=
  fun h =>
    match r with
    | Ok a => Ok (a, h)
    | Raise e => Raise e
    end.

Definition empty_frame : DataFrame := mkDF 0 [].

(** The table a reference points to; the references of the transform always
    point into the store. *)
Definition deref (r : ref) : M DataFrame := fun h => Ok (nth r h empty_frame, h).

Fixpoint update (r : ref) (df : DataFrame) (h : store) : store :=
  match h, r with
  | [], _ => []
  | _ :: t, O => df :: t
  | x :: t, S r' => x :: update r' df t
  end.

Definition assign (r : ref) (df : DataFrame) : M unit :=
  fun h => Ok (tt, update r df h).

(** A new table. *)
Definition alloc (df : DataFrame) : M ref :=
  fun h => Ok (List.length h, (h ++ [df])%list).

(** [r[c]]. *)
Definition col (r : ref) (c : string) : M (list value) :=
  df <~ deref r ;; lift (getitem df c).

(** [r[c] = values], in place. *)
Definition setitem_at (r : ref) (c : string) (l : list value) : M unit :=
  df <~ deref r ;; df' <~ lift (setitem df c l) ;; assign r df'.

(** [r[c] = scalar], in place. *)
Definition setitem_scalar_at (r : ref) (c : string) (v : value) : M unit :=
  df <~ deref r ;; assign r (setitem_scalar df c v).

(** [pd.concat([a, b], ignore_index=True)]: a new table. *)
Definition concat_at (a b : ref) : M ref :=
  x <~ deref a ;; y <~ deref b ;; z <~ lift (concat x y) ;; alloc z.

(** [for x in l: body(x)]. *)
Fixpoint for_each {A : Type} (l : list A) (body : A -> M unit) : M unit :=
  match l with
  | [] => ret tt
  | x :: rest => _ <~ body x ;; for_each rest body
  end.

(** The dictionary [transform_data] returns: a reference per table name. *)
Record tables : Type := mkTables {
  dim_date : ref;
  dim_team : ref;
  dim_player : ref;
  dim_competition : ref;
  dim_match : ref;
  fact_player_gps : ref;
  fact_player_wyscout : ref;
  fact_wyscout_match : ref
}.

Definition time_cell (o : option Z) : value :=
  match o with
  | Some t => VTime t
  | None => VNaT
  end.

(** ** The transform (lines 40-116) *)

Section Transform.

Variable scorer : string -> string -> Q.

(** [pd.to_datetime(column, errors='coerce')]: the timestamp of each cell,
    or nothing where the cell does not parse. *)
Variable to_datetime : list value -> list (option Z).

(** [list(set(l))]: the distinct elements of [l] in the order in which the
    set happens to enumerate them. *)
Variable set_list : list value -> list value.

(** Lines 63-65 and 69-71: the names of the GPS column and of the two
    Wyscout player columns, without missing cells, as a list without
    repetition. *)
Definition all_names (gps outfield goalkeeper : list value) : list value :=
  let names_gps := unique (dropna gps) in
  let names_wyscout := unique (dropna (outfield ++ goalkeeper)%list) in
  set_list (names_gps ++ names_wyscout)%list.

(** Lines 90-97:
    [t[dst] = t[src].apply(lambda x: map_name_to_id(x, dim, name_col, id_col))]. *)
Definition resolve_column (t : ref) (src : string) (dim : ref)
  (name_col id_col dst : string) : M unit :=
  names <~ col t src ;;
  dim_df <~ deref dim ;;
  ids <~ lift (apply (fun x => map_name_to_id scorer x dim_df name_col id_col)
                 names) ;;
  setitem_at t dst ids.

Definition transform_data
  (gps_match gps_training wyscout_outfield wyscout_goalkeeper
     wyscout_matches : ref) : M tables :=
  (* 43-45 *)
  _ <~ setitem_scalar_at gps_match "session_type" (VStr "match") ;;
  _ <~ setitem_scalar_at gps_training "session_type" (VStr "training") ;;
  fact_player_gps <~ concat_at gps_match gps_training ;;
  (* 47-48 *)
  _ <~ for_each
         [fact_player_gps; wyscout_matches; wyscout_outfield;
          wyscout_goalkeeper]
         (fun df =>
            d <~ col df "date" ;;
            setitem_at df "date" (map time_cell (to_datetime d))) ;;
  (* 50-52 *)
  dates_gps <~ col fact_player_gps "date" ;;
  dates_matches <~ col wyscout_matches "date" ;;
  let date_min := py_min (series_min dates_gps) (series_min dates_matches) in
  let date_max := py_max (series_max dates_gps) (series_max dates_matches) in
  range <~ lift (date_range date_min date_max) ;;
  (* 53-61 *)
  dim_date <~ alloc (dim_date_frame range) ;;
  (* 63-67 *)
  team_gps <~ col fact_player_gps "team_name" ;;
  team_outfield <~ col wyscout_outfield "team_name" ;;
  team_goalkeeper <~ col wyscout_goalkeeper "team_name" ;;
  let all_teams := all_names team_gps team_outfield team_goalkeeper in
  teams <~ lift (dimension_table "team_name_std" "team_id" all_teams) ;;
  dim_team <~ alloc teams ;;
  (* 69-73 *)
  player_gps <~ col fact_player_gps "name" ;;
  player_outfield <~ col wyscout_outfield "player" ;;
  player_goalkeeper <~ col wyscout_goalkeeper "player" ;;
  let all_players := all_names player_gps player_outfield player_goalkeeper in
  players <~ lift (dimension_table "player_name_std" "player_id" all_players) ;;
  dim_player <~ alloc players ;;
  (* 75-76 *)
  competition <~ col wyscout_matches "competition" ;;
  competitions <~ lift (dimension_table "competition" "competition_id"
                          (unique (dropna competition))) ;;
  dim_competition <~ alloc competitions ;;
  (* 90-97 *)
  _ <~ resolve_column fact_player_gps "team_name"
         dim_team "team_name_std" "team_id" "team_id" ;;
  _ <~ resolve_column fact_player_gps "name"
         dim_player "player_name_std" "player_id" "player_id" ;;
  _ <~ resolve_column wyscout_outfield "team_name"
         dim_team "team_name_std" "team_id" "team_id" ;;
  _ <~ resolve_column wyscout_goalkeeper "team_name"
         dim_team "team_name_std" "team_id" "team_id" ;;
  _ <~ resolve_column wyscout_outfield "player"
         dim_player "player_name_std" "player_id" "player_id" ;;
  _ <~ resolve_column wyscout_goalkeeper "player"
         dim_player "player_name_std" "player_id" "player_id" ;;
  _ <~ resolve_column wyscout_matches "team_name"
         dim_team "team_name_std" "team_id" "team_id" ;;
  _ <~ resolve_column wyscout_matches "competition"
         dim_competition "competition" "competition_id" "competition_id" ;;
  (* 99-101 *)
  matches <~ deref wyscout_matches ;;
  selected <~ lift (select matches
                      ["match"; "date"; "team_id"; "competition_id"]) ;;
  dim_match <~ alloc (rename (drop_duplicates selected) "match" "match_id") ;;
  match_dates <~ col dim_match "date" ;;
  date_keys <~ lift (strftime_int match_dates) ;;
  _ <~ setitem_at dim_match "date_key" date_keys ;;
  (* 103-105 *)
  _ <~ setitem_scalar_at wyscout_goalkeeper "player_type" (VStr "goalkeeper") ;;
  _ <~ setitem_scalar_at wyscout_outfield "player_type" (VStr "outfield") ;;
  fact_player_wyscout <~ concat_at wyscout_goalkeeper wyscout_outfield ;;
  (* 107-116 *)
  ret (mkTables dim_date dim_team dim_player dim_competition dim_match
         fact_player_gps fact_player_wyscout wyscout_matches).

(** Lines 198-202, the call of [transform_data] on [raw_data]: the five
    tables that [extract_data] read are five objects of the store, in the order of the
    parameters. *)
Definition run_transform (gps_match gps_training wyscout_outfield
  wyscout_goalkeeper wyscout_matches : DataFrame) : result (tables * store) :=
  transform_data 0%nat 1%nat 2%nat 3%nat 4%nat
    [gps_match; gps_training; wyscout_outfield; wyscout_goalkeeper;
     wyscout_matches].

End Transform.

(** ** Concrete collaborators, used to run the transform on examples *)

Definition digit (c : ascii) : option Z :=
  let n := nat_of_ascii c in
  if (48 <=? n)%nat && (n <=? 57)%nat then Some (Z.of_nat n - 48) else None.

Fixpoint number (s : string) (acc : Z) : option Z :=
  match s with
  | EmptyString => Some acc
  | String c rest =>
      match digit c with
      | Some d => number rest (10 * acc + d)
      | None => None
      end
  end.

(** A date written [YYYY-MM-DD], as the timestamp of its midnight. *)
Definition parse_iso_date (s : string) : option Z :=
  if negb (Nat.eqb (String.length s) 10) then None
  else
    match number (substring 0 4 s) 0, number (substring 5 2 s) 0,
          number (substring 8 2 s) 0 with
    | Some y, Some m, Some d =>
        let days := days_of_civil y m d in
        if String.eqb (substring 4 1 s) "-" && String.eqb (substring 7 1 s) "-"
           && (1 <=? m) && (m <=? 12) && (1 <=? d)
           && (snd (civil_of_days days) =? d)
        then Some (days * day_ns)
        else None
    | _, _, _ => None
    end.

(** An instance of [pd.to_datetime(..., errors='coerce')] on ISO dates. *)
Definition to_datetime_iso (column : list value) : list (option Z) :=
  map (fun v =>
         match v with
         | VStr s => parse_iso_date s
         | VTime t => Some t
         | _ => None
         end) column.

(** The scorer with its interpolated branch fixed to 0; the examples below
    only reach the exact branches. *)
Definition exact_scorer : string -> string -> Q :=
  token_set_ratio (fun _ _ => 0%Q).

(** ** Vocabulary of the properties *)

(** What the properties ask of [list(set(l))]: no element twice, and the
    elements of [l]. *)
Definition set_list_spec (set_list : list value -> list value) : Prop :=
  forall l, NoDup (set_list l) /\ forall v, In v (set_list l) <-> In v l.

(** A canonical table: names without repetition, and the keys 1, 2, ..., N
    in this order, N the number of rows. *)
Definition canonical_table (dim : DataFrame) (name_col id_col : string)
  : Prop :=
  exists names,
    getitem dim name_col = Ok names
    /\ NoDup names
    /\ index_len dim = List.length names
    /\ getitem dim id_col
       = Ok (map (fun k => VInt (Z.of_nat k)) (seq 1 (List.length names))).

(** [v] is a name observed in column [c] of the source table [df]: a cell of
    the column that is not missing. *)
Definition observed (df : DataFrame) (c : string) (v : value) : Prop :=
  In v (dropna (col_or_null df c)).

(** The dates of all fact tables of a finished run. *)
Definition fact_dates (out : tables) (h : store) : list value :=
  (col_or_null (nth (fact_player_gps out) h empty_frame) "date"
   ++ col_or_null (nth (fact_player_wyscout out) h empty_frame) "date"
   ++ col_or_null (nth (fact_wyscout_match out) h empty_frame) "date")%list.

(** [lo] is the earliest and [hi] the latest timestamp among the cells [l]. *)
Definition earliest (lo : Z) (l : list value) : Prop :=
  In (VTime lo) l /\ forall t, In (VTime t) l -> lo <= t.

Definition latest (hi : Z) (l : list value) : Prop :=
  In (VTime hi) l /\ forall t, In (VTime t) l -> t <= hi.

(** The rows [names] are the values that satisfy [seen], one row each. *)
Definition one_row_each (names : list value) (seen : value -> Prop) : Prop :=
  forall v,
    (seen v -> count_occ value_eq_dec names v = 1%nat)
    /\ (In v names -> seen v).

(** The rows of a frame, each the list of its cells in column order. *)
Definition rows_of (df : DataFrame) : list (list value) :=
  map (row (columns df)) (seq 0 (index_len df)).

(** The frame has a column [c]. *)
Definition has_col (df : DataFrame) (c : string) : Prop :=
  exists l, getitem df c = Ok l.

(** Column [dst] of table [t] holds, row by row, the resolution of column
    [src] of the same row against the canonical table [dim]. *)
Definition resolved_column (scorer : string -> string -> Q)
  (t dim : DataFrame) (src name_col id_col dst : string) : Prop :=
  exists names ids,
    getitem t src = Ok names
    /\ getitem t dst = Ok ids
    /\ Forall2
         (fun name k => map_name_to_id scorer name dim name_col id_col = Ok k)
         names ids.

(** Every cell of column [dst] of [t] is null or one of the keys 1, ..., N of
    a canonical table of N rows. *)
Definition keys_within (t dim : DataFrame) (dst : string) : Prop :=
  exists ids,
    getitem t dst = Ok ids
    /\ forall v, In v ids ->
                 v = VNull
                 \/ exists k, v = VInt k /\ 1 <= k <= Z.of_nat (index_len dim).

(** Column [c] of [df] holds integers between [lo] and [hi]. *)
Definition column_within (df : DataFrame) (c : string) (lo hi : Z) : Prop :=
  exists l,
    getitem df c = Ok l
    /\ forall v, In v l -> exists z, v = VInt z /\ lo <= z <= hi.





(** A timestamp at midnight. *)
Definition midnight (t : Z) : Prop := t mod day_ns = 0.

(** Another order a set may take: pandas' order of first appearance,
    reversed. *)
Definition unique_reversed (l : list value) : list value := rev (unique l).

(** ** Sample tables *)

Definition sample_gps_match : DataFrame :=
  mkDF 2 [("name", [VStr "Ann Lee"; VStr "Bo"]);
          ("team_name", [VStr "FC Alpha"; VNull]);
          ("date", [VStr "2024-01-01"; VStr "unknown"])].

Definition sample_gps_training : DataFrame :=
  mkDF 1 [("name", [VStr "Lee Ann"]); ("team_name", [VStr "Alpha FC"]);
          ("date", [VStr "2024-01-03"])].

Definition sample_wyscout_outfield : DataFrame :=
  mkDF 1 [("player", [VStr "Ann Lee"]); ("team_name", [VStr "FC Alpha"]);
          ("date", [VStr "2023-12-25"])].

Definition sample_wyscout_goalkeeper : DataFrame :=
  mkDF 1 [("player", [VStr "Cy"]); ("team_name", [VStr "FC Alpha"]);
          ("date", [VStr "2024-01-02"])].

Definition sample_wyscout_matches : DataFrame :=
  mkDF 2 [("match", [VStr "m1"; VStr "m1"]);
          ("team_name", [VStr "FC Alpha"; VStr "FC Alpha"]);
          ("competition", [VStr "Cup"; VStr "Cup"]);
          ("date", [VStr "2024-01-02"; VStr "2024-01-02"])].

(** The match table with a date that does not parse in its second row. *)
Definition sample_wyscout_matches_bad_date : DataFrame :=
  mkDF 2 [("match", [VStr "m1"; VStr "m2"]);
          ("team_name", [VStr "FC Alpha"; VStr "FC Alpha"]);
          ("competition", [VStr "Cup"; VStr "Cup"]);
          ("date", [VStr "2024-01-02"; VStr "unknown"])].

(** The match table with a team that no other table names. *)
Definition sample_wyscout_matches_other_team : DataFrame :=
  mkDF 2 [("match", [VStr "m1"; VStr "m2"]);
          ("team_name", [VStr "FC Alpha"; VStr "Real Madrid"]);
          ("competition", [VStr "Cup"; VStr "Cup"]);
          ("date", [VStr "2024-01-02"; VStr "2024-01-02"])].

(** The GPS match table with a label that names two columns. *)
Definition sample_gps_match_repeated_label : DataFrame :=
  mkDF 2 [("name", [VStr "Ann Lee"; VStr "Bo"]);
          ("team_name", [VStr "FC Alpha"; VNull]);
          ("date", [VStr "2024-01-01"; VStr "unknown"]);
          ("load", [VInt 1; VInt 2]);
          ("load", [VInt 3; VInt 4])].

Definition sample_run : result (tables * store) :=
  run_transform exact_scorer to_datetime_iso unique
    sample_gps_match sample_gps_training sample_wyscout_outfield
    sample_wyscout_goalkeeper sample_wyscout_matches.

(** * Properties *)

(** ** The scan of [process.extractOne] *)

Section ResolverFacts.

Variable scorer : string -> string -> Q.
Variable query : string.

Lemma Qlt_bool_true (a b : Q) : Qlt_bool a b = true <-> (a < b)%Q.
Proof.
  unfold Qlt_bool. rewrite negb_true_iff.
  split; intro H.
  - apply Qnot_le_lt. intro Hle. apply Qle_bool_iff in Hle. congruence.
  - destruct (Qle_bool b a) eqn:E; [|reflexivity].
    apply Qle_bool_iff in E. exfalso. apply (Qlt_not_le _ _ H E).
Qed.

Lemma Qlt_bool_false (a b : Q) : Qlt_bool a b = false <-> (b <= a)%Q.
Proof.
  unfold Qlt_bool. rewrite negb_false_iff. apply Qle_bool_iff.
Qed.

(** The scan started with a running best: it ends with a best whose score
    bounds the old best and every choice; either the old best stands, or
    the new best is the earliest choice that reaches its score. *)
Lemma extractOne_loop_best (choices : list string) :
  forall (key : nat) (b : string) (sb : Q) (kb : nat),
    (forall c, In c choices -> (scorer query c <= 100)%Q) ->
    exists b' sb' kb',
      extractOne_loop scorer query (map VStr choices) key (Some (b, sb, kb))
      = Ok (Some (b', sb', kb'))
      /\ (sb <= sb')%Q
      /\ (forall c, In c choices -> (scorer query c <= sb')%Q)
      /\ ((b', sb', kb') = (b, sb, kb)
          \/ exists i,
              nth_error choices i = Some b' /\ sb' = scorer query b'
              /\ kb' = (key + i)%nat /\ (sb < sb')%Q
              /\ forall j c, (j < i)%nat -> nth_error choices j = Some c ->
                             (scorer query c < sb')%Q).
Proof.
  induction choices as [|c rest IH]; intros key b sb kb Hle.
  - exists b, sb, kb. simpl. repeat split.
    + apply Qle_refl.
    + intros c [].
    + now left.
  - simpl. unfold keep_best.
    assert (Hc : (scorer query c <= 100)%Q) by (apply Hle; now left).
    assert (Hrest : forall c', In c' rest -> (scorer query c' <= 100)%Q)
      by (intros; apply Hle; now right).
    destruct (Qeq_bool (scorer query c) optimal_score) eqn:Eopt.
    + apply Qeq_bool_iff in Eopt. unfold optimal_score in Eopt.
      destruct (Qlt_bool sb (scorer query c)) eqn:Elt.
      * apply Qlt_bool_true in Elt.
        exists c, (scorer query c), key. repeat split.
        -- now apply Qlt_le_weak.
        -- intros c' Hin. rewrite Eopt. now apply Hle.
        -- right. exists 0%nat. repeat split; auto with arith.
           intros j c' Hj. inversion Hj.
      * apply Qlt_bool_false in Elt.
        exists b, sb, kb. repeat split.
        -- apply Qle_refl.
        -- intros c' Hin. apply Qle_trans with (scorer query c); [|exact Elt].
           rewrite Eopt. now apply Hle.
        -- now left.
    + destruct (Qlt_bool sb (scorer query c)) eqn:Elt.
      * apply Qlt_bool_true in Elt.
        destruct (IH (S key) c (scorer query c) key Hrest)
          as (b' & sb' & kb' & Hrun & Hge & Hall & Hcase).
        exists b', sb', kb'. rewrite Hrun. repeat split.
        -- apply Qle_trans with (scorer query c); [now apply Qlt_le_weak|exact Hge].
        -- intros c' [<-|Hin]; [exact Hge|now apply Hall].
        -- right. destruct Hcase as [Heq|(i & Hn & Hs & Hk & Hlt & Hbefore)].
           ++ inversion Heq; subst. exists 0%nat. repeat split; auto with arith.
              intros j c' Hj. inversion Hj.
           ++ exists (S i). repeat split; auto.
              ** rewrite Hk. lia.
              ** apply Qlt_trans with (scorer query c); assumption.
              ** intros [|j] c' Hj Hnth; simpl in Hnth.
                 --- inversion Hnth; subst. exact Hlt.
                 --- apply (Hbefore j); [lia|exact Hnth].
      * apply Qlt_bool_false in Elt.
        destruct (IH (S key) b sb kb Hrest)
          as (b' & sb' & kb' & Hrun & Hge & Hall & Hcase).
        exists b', sb', kb'. rewrite Hrun. repeat split.
        -- exact Hge.
        -- intros c' [<-|Hin]; [|now apply Hall].
           apply Qle_trans with sb; assumption.
        -- destruct Hcase as [Heq|(i & Hn & Hs & Hk & Hlt & Hbefore)];
             [now left|right].
           exists (S i). repeat split; auto.
           ++ rewrite Hk. lia.
           ++ intros [|j] c' Hj Hnth; simpl in Hnth.
              ** inversion Hnth; subst.
                 apply Qle_lt_trans with sb; assumption.
              ** apply (Hbefore j); [lia|exact Hnth].
Qed.

End ResolverFacts.

(** The scan over a non-empty list of candidates, from no running best:
    its result is the earliest candidate of maximal score. *)
Lemma extractOne_first_best (scorer : string -> string -> Q) (query : string)
  (candidates : list string) :
  candidates <> [] ->
  (forall c, In c candidates -> (0 <= scorer query c <= 100)%Q) ->
  exists i best,
    nth_error candidates i = Some best
    /\ (forall c, In c candidates -> (scorer query c <= scorer query best)%Q)
    /\ (forall j c, (j < i)%nat -> nth_error candidates j = Some c ->
                    (scorer query c < scorer query best)%Q)
    /\ extractOne scorer (VStr query) (map VStr candidates)
       = Ok (Some (best, scorer query best, i)).
Proof.
  destruct candidates as [|c rest]; [congruence|]. intros _ Hrange.
  assert (Hc : (0 <= scorer query c <= 100)%Q) by (apply Hrange; now left).
  assert (Hrest : forall c', In c' rest -> (scorer query c' <= 100)%Q)
    by (intros c' Hin; apply Hrange; now right).
  simpl. unfold keep_best.
  destruct Hc as [Hc0 Hc100].
  apply Qle_bool_iff in Hc0. unfold worst_score. rewrite Hc0.
  destruct (Qeq_bool (scorer query c) optimal_score) eqn:Eopt.
  - apply Qeq_bool_iff in Eopt. unfold optimal_score in Eopt.
    exists 0%nat, c. repeat split.
    + intros c' Hin. rewrite Eopt. now apply Hrange.
    + intros j c' Hj. inversion Hj.
  - destruct (extractOne_loop_best scorer query rest 1 c (scorer query c) 0 Hrest)
      as (b' & sb' & kb' & Hrun & Hge & Hall & Hcase).
    destruct Hcase as [Heq|(i & Hn & Hs & Hk & Hlt & Hbefore)].
    + inversion Heq; subst. exists 0%nat, c. repeat split; auto.
      * intros c' [<-|Hin]; [apply Qle_refl|now apply Hall].
      * intros j c' Hj. inversion Hj.
    + subst sb' kb'. exists (S i), b'. repeat split; auto.
      * intros c' [<-|Hin]; [exact Hge|now apply Hall].
      * intros [|j] c' Hj Hnth; simpl in Hnth.
        -- inversion Hnth; subst. exact Hlt.
        -- apply (Hbefore j); [lia|exact Hnth].
Qed.

(** The scorer stays within [0, 100] when its interpolated branch does. *)
Lemma token_set_ratio_range (interpolated : string -> string -> Q) :
  (forall a b, (0 <= interpolated a b <= 100)%Q) ->
  forall s1 s2, (0 <= token_set_ratio interpolated s1 s2 <= 100)%Q.
Proof.
  intros Hrange s1 s2. unfold token_set_ratio.
  repeat match goal with
  | |- context [if ?b then _ else _] => destruct b
  end; try apply Hrange; split; apply Qle_bool_iff; reflexivity.
Qed.

Lemma filter_all {A : Type} (f : A -> bool) (l : list A) :
  (forall x, In x l -> f x = true) -> filter f l = l.
Proof.
  induction l as [|x l IH]; intro H; [reflexivity|]. simpl.
  rewrite (H x (or_introl eq_refl)). f_equal. apply IH.
  intros y Hy. apply H. now right.
Qed.

Lemma filter_none {A : Type} (f : A -> bool) (l : list A) :
  (forall x, In x l -> f x = false) -> filter f l = [].
Proof.
  induction l as [|x l IH]; intro H; [reflexivity|]. simpl.
  rewrite (H x (or_introl eq_refl)). apply IH.
  intros y Hy. apply H. now right.
Qed.

(** A name with a token scores 100 against itself. *)
Lemma token_set_ratio_self (interpolated : string -> string -> Q)
  (n : string) :
  split n <> [] -> token_set_ratio interpolated n n = 100%Q.
Proof.
  intro Hs. unfold token_set_ratio.
  assert (Ht : truthy n = true) by (destruct n; [now elim Hs|reflexivity]).
  rewrite Ht. cbn [negb orb].
  assert (Hmem : forall t, In t (split n) -> mem t (split n) = true).
  { intros t Hin. unfold mem. apply existsb_exists. exists t.
    split; [exact Hin|apply String.eqb_refl]. }
  unfold intersection, difference.
  rewrite (filter_all _ _ Hmem).
  rewrite (filter_none (fun t => negb (mem t (split n))) (split n))
    by (intros t Hin; now rewrite (Hmem t Hin)).
  destruct (split n); [now elim Hs|reflexivity].
Qed.

(** ** The resolver *)

(** C1.  A missing query ([None], [NaN], [NaT]) resolves to null whatever the
    scorer and the table are, so nothing is scored and no candidate is even
    read.  A present query against a non-empty list of candidates, with
    scores in [0, 100], resolves to the candidate of maximal score, the
    earliest one among equals, when that score reaches the threshold, and to
    null otherwise.  The threshold that [map_name_to_id] passes is 85. *)
Theorem resolve_first_best_above_threshold :
  forall (scorer : string -> string -> Q) (threshold : Q)
         (query : string) (candidates : list string),
    candidates <> [] ->
    (forall c, In c candidates -> (0 <= scorer query c <= 100)%Q) ->
    (forall (missing : value) (dim_df : DataFrame) (name_col id_col : string),
        isna missing = true ->
        map_name_to_id scorer missing dim_df name_col id_col = Ok VNull)
    /\ exists i best,
        nth_error candidates i = Some best
        /\ (forall c, In c candidates ->
                      (scorer query c <= scorer query best)%Q)
        /\ (forall j c, (j < i)%nat -> nth_error candidates j = Some c ->
                        (scorer query c < scorer query best)%Q)
        /\ fuzzy_match scorer (VStr query) (map VStr candidates) threshold
           = Ok (if Qle_bool threshold (scorer query best)
                 then Some best else None)
        /\ default_threshold = 85%Q.
Proof.
  intros scorer threshold query candidates Hne Hrange. split.
  - intros missing dim_df name_col id_col Hna.
    unfold map_name_to_id. now rewrite Hna.
  - destruct (extractOne_first_best scorer query candidates Hne Hrange)
      as (i & best & Hn & Hmax & Hfirst & Hrun).
    exists i, best. repeat split; auto.
    unfold fuzzy_match. rewrite Hrun. reflexivity.
Qed.

Lemma resolve_first_best_above_threshold_witness :
  exists i best,
    nth_error [""; "FC Alpha"; "Alpha FC"] i = Some best
    /\ (forall c, In c [""; "FC Alpha"; "Alpha FC"] ->
                  (exact_scorer "Alpha FC" c <= exact_scorer "Alpha FC" best)%Q)
    /\ (forall j c, (j < i)%nat ->
                    nth_error [""; "FC Alpha"; "Alpha FC"] j = Some c ->
                    (exact_scorer "Alpha FC" c < exact_scorer "Alpha FC" best)%Q)
    /\ fuzzy_match exact_scorer (VStr "Alpha FC")
         (map VStr [""; "FC Alpha"; "Alpha FC"]) 85
       = Ok (if Qle_bool 85 (exact_scorer "Alpha FC" best)
             then Some best else None)
    /\ default_threshold = 85%Q.
Proof.
  apply (resolve_first_best_above_threshold exact_scorer 85 "Alpha FC"
           [""; "FC Alpha"; "Alpha FC"]).
  - discriminate.
  - intros c _. apply token_set_ratio_range. intros a b.
    split; apply Qle_bool_iff; reflexivity.
Defined.

(** C3.  With no candidate at all [process.extractOne] returns [None], and
    unpacking it raises: resolving a present query against an empty
    canonical table raises [TypeError] instead of returning null.  The run of
    the transform below has no team name in the GPS and player tables and one
    in the match table; it raises at line 96. *)
Theorem resolve_without_candidates_raises :
  (forall (scorer : string -> string -> Q) (query : string) (threshold : Q),
      fuzzy_match scorer (VStr query) [] threshold = Raise TypeError)
  /\ (forall (scorer : string -> string -> Q) (query : string),
         map_name_to_id scorer (VStr query)
           (mkDF 0 [("team_name_std", []); ("team_id", [])])
           "team_name_std" "team_id" = Raise TypeError)
  /\ run_transform exact_scorer to_datetime_iso unique
       (mkDF 1 [("name", [VStr "Ann Lee"]); ("team_name", [VNull]);
                ("date", [VStr "2024-01-01"])])
       (mkDF 1 [("name", [VStr "Ann Lee"]); ("team_name", [VNull]);
                ("date", [VStr "2024-01-03"])])
       (mkDF 1 [("player", [VStr "Ann Lee"]); ("team_name", [VNull]);
                ("date", [VStr "2024-01-02"])])
       (mkDF 1 [("player", [VStr "Cy Young"]); ("team_name", [VNull]);
                ("date", [VStr "2024-01-02"])])
       (mkDF 1 [("match", [VStr "m1"]); ("team_name", [VStr "FC Alpha"]);
                ("competition", [VStr "Cup"]); ("date", [VStr "2024-01-02"])])
     = Raise TypeError.
Proof.
  split; [|split].
  - reflexivity.
  - reflexivity.
  - vm_compute. reflexivity.
Qed.

Lemma extractOne_loop_ext (scorer1 scorer2 : string -> string -> Q)
  (query : string) (choices : list value) :
  (forall c, In (VStr c) choices -> scorer1 query c = scorer2 query c) ->
  forall key best,
    extractOne_loop scorer1 query choices key best
    = extractOne_loop scorer2 query choices key best.
Proof.
  induction choices as [|v rest IH]; intros Hagree key best; [reflexivity|].
  assert (Hrest : forall c, In (VStr c) rest -> scorer1 query c = scorer2 query c)
    by (intros c Hin; apply Hagree; now right).
  destruct v as [| |c|n|t]; simpl; auto.
  rewrite (Hagree c) by now left.
  destruct (Qeq_bool (scorer2 query c) optimal_score); auto.
Qed.

(** C8.  The result of [fuzzy_match] is a function of the query, the
    candidates, the threshold and the scores of the query against the listed
    candidates, and of nothing else: two calls on the same query, candidates
    and threshold return the same result, even through two scorers, as long
    as these give the listed candidates the same scores. *)
Theorem resolve_deterministic :
  forall (scorer1 scorer2 : string -> string -> Q) (query : value)
         (candidates : list value) (threshold : Q),
    (forall q c, query = VStr q -> In (VStr c) candidates ->
                 scorer1 q c = scorer2 q c) ->
    fuzzy_match scorer1 query candidates threshold
    = fuzzy_match scorer2 query candidates threshold.
Proof.
  intros scorer1 scorer2 query candidates threshold Hagree.
  unfold fuzzy_match, extractOne.
  destruct query as [| |q|n|t]; try reflexivity.
  rewrite (extractOne_loop_ext scorer1 scorer2 q candidates); [reflexivity|].
  intros c Hin. now apply Hagree.
Qed.

Lemma resolve_deterministic_witness :
  fuzzy_match exact_scorer (VStr "Alpha FC") [VStr ""; VStr "FC Alpha"] 85
  = fuzzy_match exact_scorer (VStr "Alpha FC") [VStr ""; VStr "FC Alpha"] 85.
Proof.
  apply (resolve_deterministic exact_scorer exact_scorer).
  intros q c _ _. reflexivity.
Defined.

(** C10.  [if matched:] tests the matched name for truth, not for being
    present: when the match of a present query is the empty string, the
    result is null although the score reached the threshold and although the
    table has a row, and a key, for that name. *)
Theorem map_name_to_id_empty_match_is_null :
  forall (scorer : string -> string -> Q) (name : value) (dim_df : DataFrame)
         (name_col id_col : string) (names : list value),
    isna name = false ->
    getitem dim_df name_col = Ok names ->
    fuzzy_match scorer name names default_threshold = Ok (Some "") ->
    map_name_to_id scorer name dim_df name_col id_col = Ok VNull.
Proof.
  intros scorer name dim_df name_col id_col names Hna Hnames Hmatch.
  unfold map_name_to_id. rewrite Hna, Hnames. simpl. rewrite Hmatch.
  reflexivity.
Qed.

Lemma map_name_to_id_empty_match_is_null_witness :
  fuzzy_match (fun _ _ => 90%Q) (VStr "FC Alpha") [VStr ""; VStr "FC Beta"]
    default_threshold = Ok (Some "")
  /\ loc_eq [VStr ""; VStr "FC Beta"] [VInt 1; VInt 2] (VStr "") = [VInt 1]
  /\ map_name_to_id (fun _ _ => 90%Q) (VStr "FC Alpha")
       (mkDF 2 [("team_name_std", [VStr ""; VStr "FC Beta"]);
                ("team_id", [VInt 1; VInt 2])])
       "team_name_std" "team_id" = Ok VNull.
Proof.
  split; [reflexivity|split; [reflexivity|]].
  apply (map_name_to_id_empty_match_is_null (fun _ _ => 90%Q) (VStr "FC Alpha")
           (mkDF 2 [("team_name_std", [VStr ""; VStr "FC Beta"]);
                    ("team_id", [VInt 1; VInt 2])])
           "team_name_std" "team_id" [VStr ""; VStr "FC Beta"]);
    reflexivity.
Defined.

(** ** Canonical tables *)

Lemma py_range_length (lo hi : Z) :
  List.length (py_range lo hi) = Z.to_nat (hi - lo).
Proof.
  unfold py_range. now rewrite length_map, length_seq.
Qed.

Lemma py_range_nth_error (lo hi : Z) (i : nat) :
  (i < Z.to_nat (hi - lo))%nat ->
  nth_error (py_range lo hi) i = Some (lo + Z.of_nat i).
Proof.
  intro Hi. unfold py_range.
  rewrite nth_error_map, nth_error_seq.
  destruct (Nat.ltb_spec i (Z.to_nat (hi - lo))); [reflexivity|lia].
Qed.

(** Lines 66-67 never raise: the key column has the length of the table. *)
Lemma dimension_table_ok (name_col id_col : string) (names : list value) :
  dimension_table name_col id_col names
  = Ok (with_col (mkDF (List.length names) [(name_col, names)]) id_col
          (map VInt (py_range 1 (Z.of_nat (List.length names) + 1)))).
Proof.
  unfold dimension_table, setitem. simpl.
  rewrite length_map, py_range_length.
  replace (Z.to_nat (Z.of_nat (List.length names) + 1 - 1))
    with (List.length names) by lia.
  now rewrite Nat.eqb_refl.
Qed.

Lemma dimension_table_columns (name_col id_col : string) (names : list value)
  (dim : DataFrame) :
  name_col <> id_col ->
  dimension_table name_col id_col names = Ok dim ->
  index_len dim = List.length names
  /\ getitem dim name_col = Ok names
  /\ getitem dim id_col
     = Ok (map VInt (py_range 1 (Z.of_nat (List.length names) + 1))).
Proof.
  intros Hne Hdim. rewrite dimension_table_ok in Hdim.
  inversion Hdim; subst; clear Hdim. unfold getitem. simpl.
  assert (E1 : String.eqb id_col name_col = false)
    by (apply String.eqb_neq; congruence).
  rewrite E1. simpl. rewrite !String.eqb_refl, E1. auto.
Qed.

Lemma value_eqb_refl (v : value) : value_eqb v v = true.
Proof.
  unfold value_eqb. destruct (value_eq_dec v v); congruence.
Qed.

Lemma value_eqb_neq (v w : value) : v <> w -> value_eqb v w = false.
Proof.
  unfold value_eqb. destruct (value_eq_dec v w); congruence.
Qed.

Lemma loc_eq_absent (names ids : list value) (v : value) :
  ~ In v names -> loc_eq names ids v = [].
Proof.
  revert ids. induction names as [|n names IH]; intros ids Hnot;
    [reflexivity|].
  destruct ids as [|k ids]; [reflexivity|]. simpl.
  rewrite value_eqb_neq by (intro; subst; apply Hnot; now left).
  apply IH. intro Hin. apply Hnot. now right.
Qed.

(** In a table without repeated names the row of a name is its only row. *)
Lemma loc_eq_nth (names ids : list value) (i : nat) (v k : value) :
  NoDup names ->
  nth_error names i = Some v -> nth_error ids i = Some k ->
  loc_eq names ids v = [k].
Proof.
  revert ids i. induction names as [|n names IH]; intros ids i Hnd Hn Hk.
  - destruct i; discriminate.
  - inversion Hnd as [|? ? Hnot Hnd']; subst.
    destruct ids as [|k' ids]; [destruct i; discriminate|].
    destruct i as [|i]; simpl in Hn, Hk |- *.
    + inversion Hn; inversion Hk; subst.
      rewrite value_eqb_refl. now rewrite loc_eq_absent.
    + rewrite value_eqb_neq.
      * now apply (IH ids i).
      * intro; subst. apply Hnot. eapply nth_error_In; eauto.
Qed.

(** C2, as stated, fails: with the teams "FC Alpha" and "Alpha FC" in one
    table, in either order, the second name resolves to the key of the first,
    which has the same tokens and so the same score 100. *)
Lemma self_match_counterexample :
  (exists dim,
      dimension_table "team_name_std" "team_id"
        [VStr "FC Alpha"; VStr "Alpha FC"] = Ok dim
      /\ getitem dim "team_name_std" = Ok [VStr "FC Alpha"; VStr "Alpha FC"]
      /\ getitem dim "team_id" = Ok [VInt 1; VInt 2]
      /\ map_name_to_id exact_scorer (VStr "Alpha FC") dim
           "team_name_std" "team_id" = Ok (VInt 1))
  /\ (exists dim,
         dimension_table "team_name_std" "team_id"
           [VStr "Alpha FC"; VStr "FC Alpha"] = Ok dim
         /\ getitem dim "team_name_std" = Ok [VStr "Alpha FC"; VStr "FC Alpha"]
         /\ getitem dim "team_id" = Ok [VInt 1; VInt 2]
         /\ map_name_to_id exact_scorer (VStr "FC Alpha") dim
              "team_name_std" "team_id" = Ok (VInt 1)).
Proof.
  split; eexists; (split; [reflexivity|]); repeat split; reflexivity.
Qed.

(** C2, amended.  A canonical name [n] that scores 100 against itself
    resolves, at any threshold up to 100, to the name [c] of the earliest row
    [w] of the table that scores 100 against [n], and [map_name_to_id]
    returns the key of that row, [w + 1] (null when [c] is the empty
    string).  The row [w] is never after the row [i] of [n]; it is the row of
    [n], and the key the own key of [n], exactly when no row before [i]
    scores 100 against [n]. *)
Theorem self_match_own_key :
  forall (scorer : string -> string -> Q) (names : list string)
         (name_col id_col : string) (dim : DataFrame) (i : nat) (n : string),
    name_col <> id_col ->
    NoDup names ->
    dimension_table name_col id_col (map VStr names) = Ok dim ->
    nth_error names i = Some n ->
    (forall c, In c names -> (0 <= scorer n c <= 100)%Q) ->
    (scorer n n == 100)%Q ->
    exists (w : nat) (c : string),
      (w <= i)%nat
      /\ nth_error names w = Some c
      /\ (scorer n c == 100)%Q
      /\ (forall j c', (j < w)%nat -> nth_error names j = Some c' ->
                       (scorer n c' < 100)%Q)
      /\ (forall threshold, (threshold <= 100)%Q ->
             fuzzy_match scorer (VStr n) (map VStr names) threshold
             = Ok (Some c))
      /\ map_name_to_id scorer (VStr n) dim name_col id_col
         = Ok (if truthy c then VInt (Z.of_nat w + 1) else VNull)
      /\ (w = i <->
          forall j c', (j < i)%nat -> nth_error names j = Some c' ->
                       (scorer n c' < 100)%Q)
      /\ (w = i -> c = n).
Proof.
  intros scorer names name_col id_col dim i n Hcols Hnd Hdim Hn Hrange Hself.
  assert (Hnames : names <> []) by (intro; subst; destruct i; discriminate).
  destruct (extractOne_first_best scorer n names Hnames Hrange)
    as (w & c & Hc & Hmax & Hfirst & Hrun).
  assert (Hin : In n names) by (eapply nth_error_In; eauto).
  assert (Hbest : (scorer n c == 100)%Q).
  { apply Qle_antisym.
    - apply Hrange. eapply nth_error_In; eauto.
    - rewrite <- Hself. now apply Hmax. }
  assert (Hw : (w <= i)%nat).
  { destruct (Nat.le_gt_cases w i) as [Hle|Hgt]; [exact Hle|].
    exfalso. specialize (Hfirst i n Hgt Hn).
    rewrite Hself, Hbest in Hfirst. now apply (Qlt_irrefl 100). }
  assert (Hearlier : forall j c', (j < w)%nat -> nth_error names j = Some c' ->
                                  (scorer n c' < 100)%Q).
  { intros j c' Hj Hc'. rewrite <- Hbest. now apply (Hfirst j c'). }
  assert (Hmatch : forall threshold, (threshold <= 100)%Q ->
            fuzzy_match scorer (VStr n) (map VStr names) threshold
            = Ok (Some c)).
  { intros threshold Hth. unfold fuzzy_match. rewrite Hrun. simpl.
    assert (Hle : Qle_bool threshold (scorer n c) = true)
      by (apply Qle_bool_iff; now rewrite Hbest).
    now rewrite Hle. }
  exists w, c.
  split; [exact Hw|]. split; [exact Hc|]. split; [exact Hbest|].
  split; [exact Hearlier|]. split; [exact Hmatch|]. split; [|split].
  - destruct (dimension_table_columns _ _ _ _ Hcols Hdim) as (_ & Hgn & Hgi).
    unfold map_name_to_id. simpl. rewrite Hgn. simpl.
    rewrite Hmatch
      by (unfold default_threshold; apply Qle_bool_iff; reflexivity).
    cbn [bind]. destruct (truthy c); [|reflexivity].
    rewrite Hgi. cbn [bind].
    rewrite (loc_eq_nth (map VStr names) _ w (VStr c)
               (VInt (1 + Z.of_nat w))).
    + f_equal. f_equal. lia.
    + apply Injective_map_NoDup; [|exact Hnd].
      intros x y Hxy. now inversion Hxy.
    + now rewrite nth_error_map, Hc.
    + rewrite nth_error_map, py_range_nth_error; [reflexivity|].
      rewrite length_map.
      assert (w < List.length names)%nat
        by (apply nth_error_Some; congruence).
      lia.
  - split.
    + intros ->. exact Hearlier.
    + intro Hbefore.
      destruct (Nat.eq_dec w i) as [Heq|Hneq]; [exact Heq|].
      exfalso. assert (Hlt : (w < i)%nat) by lia.
      specialize (Hbefore w c Hlt Hc).
      rewrite Hbest in Hbefore. now apply (Qlt_irrefl 100).
  - intros ->. congruence.
Qed.

Lemma self_match_own_key_witness :
  exists (w : nat) (c : string),
    (w <= 1)%nat
    /\ nth_error ["FC Alpha"; "Alpha FC"] w = Some c
    /\ (exact_scorer "Alpha FC" c == 100)%Q
    /\ (forall j c', (j < w)%nat ->
                     nth_error ["FC Alpha"; "Alpha FC"] j = Some c' ->
                     (exact_scorer "Alpha FC" c' < 100)%Q)
    /\ (forall threshold, (threshold <= 100)%Q ->
           fuzzy_match exact_scorer (VStr "Alpha FC")
             (map VStr ["FC Alpha"; "Alpha FC"]) threshold
           = Ok (Some c))
    /\ map_name_to_id exact_scorer (VStr "Alpha FC")
         (mkDF 2 [("team_name_std", [VStr "FC Alpha"; VStr "Alpha FC"]);
                  ("team_id", [VInt 1; VInt 2])])
         "team_name_std" "team_id"
       = Ok (if truthy c then VInt (Z.of_nat w + 1) else VNull)
    /\ (w = 1%nat <->
        forall j c', (j < 1)%nat ->
                     nth_error ["FC Alpha"; "Alpha FC"] j = Some c' ->
                     (exact_scorer "Alpha FC" c' < 100)%Q)
    /\ (w = 1%nat -> c = "Alpha FC").
Proof.
  apply (self_match_own_key exact_scorer ["FC Alpha"; "Alpha FC"]
           "team_name_std" "team_id"
           (mkDF 2 [("team_name_std", [VStr "FC Alpha"; VStr "Alpha FC"]);
                    ("team_id", [VInt 1; VInt 2])])
           1%nat "Alpha FC"
           ltac:(discriminate)
           ltac:(repeat constructor; simpl; intuition discriminate)
           ltac:(reflexivity)
           ltac:(reflexivity)
           ltac:(intros c [<-|[<-|[]]]; split; apply Qle_bool_iff;
                 vm_compute; reflexivity)
           ltac:(vm_compute; reflexivity)).
Defined.

(** ** Running the transform: what each step leaves in the store *)

Lemma bindM_Ok {A B : Type} (m : M A) (k : A -> M B) (h : store)
  (r : B * store) :
  bindM m k h = Ok r -> exists a h1, m h = Ok (a, h1) /\ k a h1 = Ok r.
Proof.
  unfold bindM. destruct (m h) as [[a h1]|e]; [|discriminate].
  intro H. now exists a, h1.
Qed.

Lemma ret_Ok {A : Type} (a b : A) (h h1 : store) :
  ret a h = Ok (b, h1) -> b = a /\ h1 = h.
Proof.
  unfold ret. intro H. now inversion H.
Qed.

Lemma lift_Ok {A : Type} (r : result A) (a : A) (h h1 : store) :
  lift r h = Ok (a, h1) -> r = Ok a /\ h1 = h.
Proof.
  unfold lift. destruct r; [|discriminate]. intro H. now inversion H.
Qed.

Lemma deref_Ok (r : ref) (df : DataFrame) (h h1 : store) :
  deref r h = Ok (df, h1) -> df = nth r h empty_frame /\ h1 = h.
Proof.
  unfold deref. intro H. now inversion H.
Qed.

Lemma alloc_Ok (df : DataFrame) (r : ref) (h h1 : store) :
  alloc df h = Ok (r, h1) -> r = List.length h /\ h1 = (h ++ [df])%list.
Proof.
  unfold alloc. intro H. now inversion H.
Qed.

Lemma col_Ok (r : ref) (c : string) (l : list value) (h h1 : store) :
  col r c h = Ok (l, h1) ->
  getitem (nth r h empty_frame) c = Ok l /\ h1 = h.
Proof.
  unfold col, bindM, deref, lift.
  destruct (getitem (nth r h empty_frame) c); [|discriminate].
  intro H. now inversion H.
Qed.

Lemma setitem_Ok (df df' : DataFrame) (c : string) (l : list value) :
  setitem df c l = Ok df' ->
  List.length l = index_len df /\ df' = with_col df c l.
Proof.
  unfold setitem. destruct (Nat.eqb_spec (List.length l) (index_len df));
    [|discriminate].
  intro H. now inversion H.
Qed.

Lemma setitem_at_Ok (r : ref) (c : string) (l : list value) (u : unit)
  (h h1 : store) :
  setitem_at r c l h = Ok (u, h1) ->
  List.length l = index_len (nth r h empty_frame)
  /\ h1 = update r (with_col (nth r h empty_frame) c l) h.
Proof.
  unfold setitem_at, bindM, deref, lift, assign.
  destruct (setitem (nth r h empty_frame) c l) as [df'|e] eqn:E;
    [|discriminate].
  apply setitem_Ok in E. destruct E as [Hlen ->].
  intro H. now inversion H.
Qed.

Lemma setitem_scalar_at_Ok (r : ref) (c : string) (v : value) (u : unit)
  (h h1 : store) :
  setitem_scalar_at r c v h = Ok (u, h1) ->
  h1 = update r (setitem_scalar (nth r h empty_frame) c v) h.
Proof.
  unfold setitem_scalar_at, bindM, deref, assign. intro H. now inversion H.
Qed.

Lemma concat_at_Ok (a b r : ref) (h h1 : store) :
  concat_at a b h = Ok (r, h1) ->
  exists d,
    concat (nth a h empty_frame) (nth b h empty_frame) = Ok d
    /\ r = List.length h
    /\ h1 = (h ++ [d])%list.
Proof.
  unfold concat_at, bindM, deref, lift, alloc. intro H.
  destruct (concat (nth a h empty_frame) (nth b h empty_frame)) as [d|e];
    [|discriminate].
  exists d. now inversion H.
Qed.

Lemma resolve_column_Ok (scorer : string -> string -> Q) (t : ref)
  (src : string) (dim : ref) (name_col id_col dst : string) (u : unit)
  (h h1 : store) :
  resolve_column scorer t src dim name_col id_col dst h = Ok (u, h1) ->
  exists names ids,
    getitem (nth t h empty_frame) src = Ok names
    /\ apply (fun x => map_name_to_id scorer x (nth dim h empty_frame)
                         name_col id_col) names = Ok ids
    /\ h1 = update t (with_col (nth t h empty_frame) dst ids) h.
Proof.
  unfold resolve_column. intro H.
  apply bindM_Ok in H. destruct H as (names & h2 & Hcol & H).
  apply col_Ok in Hcol. destruct Hcol as [Hnames ->].
  apply bindM_Ok in H. destruct H as (dim_df & h2 & Hd & H).
  apply deref_Ok in Hd. destruct Hd as [-> ->].
  apply bindM_Ok in H. destruct H as (ids & h2 & Hl & H).
  apply lift_Ok in Hl. destruct Hl as [Hids ->].
  apply setitem_at_Ok in H. destruct H as [_ ->].
  now exists names, ids.
Qed.

(** Inverts a successful run of store steps, one step after the other, and
    keeps the store in the shape of an explicit list. *)
Ltac run_step H :=
  cbv beta zeta in H;
  lazymatch type of H with
  | bindM _ _ _ = Ok _ =>
      let a := fresh "a" in
      let h1 := fresh "h" in
      let Hs := fresh "Hs" in
      apply bindM_Ok in H; destruct H as (a & h1 & Hs & H);
      run_step Hs; run_step H
  | for_each (_ :: _) _ _ = Ok _ => cbn [for_each] in H; run_step H
  | for_each [] _ _ = Ok _ => apply ret_Ok in H; destruct H as [? ?]; subst
  | ret _ _ = Ok _ => apply ret_Ok in H; destruct H as [? ?]; subst
  | lift _ _ = Ok _ => apply lift_Ok in H; destruct H as [H ?]; subst
  | deref _ _ = Ok _ => apply deref_Ok in H; destruct H as [? ?]; subst
  | alloc _ _ = Ok _ => apply alloc_Ok in H; destruct H as [? ?]; subst
  | col _ _ _ = Ok _ => apply col_Ok in H; destruct H as [H ?]; subst
  | setitem_at _ _ _ _ = Ok _ =>
      apply setitem_at_Ok in H; destruct H as [H ?]; subst
  | setitem_scalar_at _ _ _ _ = Ok _ =>
      apply setitem_scalar_at_Ok in H; subst
  | concat_at _ _ _ = Ok _ =>
      let d := fresh "stacked" in
      let Hc := fresh "Hconcat" in
      apply concat_at_Ok in H; destruct H as (d & Hc & ? & ?); subst
  | resolve_column _ _ _ _ _ _ _ _ = Ok _ =>
      let names := fresh "names" in
      let ids := fresh "ids" in
      let Hn := fresh "Hnames" in
      let Hi := fresh "Hids" in
      apply resolve_column_Ok in H;
      destruct H as (names & ids & Hn & Hi & ?); subst
  end;
  cbn [nth update app List.length] in *.

(** ** Columns *)

Lemma lookup_col_replace_same (c : string) (l : list value)
  (cols : list (string * list value)) :
  lookup_col c (replace_col c l cols) = Some l.
Proof.
  induction cols as [|[c' l'] cols IH]; simpl.
  - now rewrite String.eqb_refl.
  - destruct (String.eqb c c') eqn:E; simpl.
    + now rewrite String.eqb_refl.
    + now rewrite E.
Qed.

Lemma lookup_col_replace_other (c c' : string) (l : list value)
  (cols : list (string * list value)) :
  c <> c' -> lookup_col c (replace_col c' l cols) = lookup_col c cols.
Proof.
  intro Hne. apply String.eqb_neq in Hne.
  induction cols as [|[c'' l''] cols IH]; simpl.
  - now rewrite Hne.
  - destruct (String.eqb c' c'') eqn:E; simpl.
    + apply String.eqb_eq in E. subst c''. now rewrite Hne.
    + now rewrite IH.
Qed.

Lemma getitem_with_col_same (df : DataFrame) (c : string) (l : list value) :
  getitem (with_col df c l) c = Ok l.
Proof.
  unfold getitem, with_col. simpl. now rewrite lookup_col_replace_same.
Qed.

Lemma getitem_with_col_other (df : DataFrame) (c c' : string)
  (l : list value) :
  c <> c' -> getitem (with_col df c' l) c = getitem df c.
Proof.
  intro Hne. unfold getitem, with_col. simpl.
  now rewrite lookup_col_replace_other.
Qed.

Lemma col_or_null_with_col_other (df : DataFrame) (c c' : string)
  (l : list value) :
  c <> c' -> col_or_null (with_col df c' l) c = col_or_null df c.
Proof.
  intro Hne. unfold col_or_null, with_col. simpl.
  now rewrite lookup_col_replace_other.
Qed.

Lemma lookup_col_map (f : string -> list value) (c : string)
  (cs : list string) :
  lookup_col c (map (fun c' => (c', f c')) cs)
  = if mem c cs then Some (f c) else None.
Proof.
  unfold mem. induction cs as [|c' cs IH]; simpl; [reflexivity|].
  destruct (String.eqb_spec c c') as [->|Hne]; simpl; [reflexivity|exact IH].
Qed.

Lemma lookup_col_mem (c : string) (cols : list (string * list value))
  (l : list value) :
  lookup_col c cols = Some l -> mem c (map fst cols) = true.
Proof.
  unfold mem. induction cols as [|[c' l'] cols IH]; simpl; [discriminate|].
  destruct (String.eqb c c'); [reflexivity|exact IH].
Qed.

Lemma mem_lookup_col (c : string) (cols : list (string * list value)) :
  mem c (map fst cols) = true -> exists l, lookup_col c cols = Some l.
Proof.
  unfold mem. induction cols as [|[c' l'] cols IH]; simpl; [discriminate|].
  destruct (String.eqb c c'); [now exists l'|exact IH].
Qed.

Lemma mem_union_cols (a b : DataFrame) (c : string) :
  mem c (union_cols a b)
  = mem c (map fst (columns a)) || mem c (map fst (columns b)).
Proof.
  unfold union_cols, mem. rewrite existsb_app.
  destruct (existsb (String.eqb c) (map fst (columns a))) eqn:Ea;
    [reflexivity|]. simpl.
  induction (map fst (columns b)) as [|c' cs IH]; [reflexivity|]. simpl.
  destruct (existsb (String.eqb c') (map fst (columns a))) eqn:Em; simpl.
  - rewrite IH. destruct (String.eqb_spec c c') as [->|Hne]; [|reflexivity].
    congruence.
  - now rewrite IH.
Qed.

Lemma lookup_col_stack (c : string) (a b : list (string * list value)) :
  map fst a = map fst b ->
  lookup_col c (stack_cols a b)
  = match lookup_col c a, lookup_col c b with
    | Some l, Some l' => Some (l ++ l')%list
    | _, _ => None
    end.
Proof.
  revert b. induction a as [|[c1 l1] a IH]; intros [|[c2 l2] b] E;
    try discriminate; [reflexivity|].
  simpl in E. injection E as E1 E2. subst c2. simpl.
  destruct (String.eqb c c1); [reflexivity|now apply IH].
Qed.

(** What [pd.concat([a, b])] returns, when it returns: a frame as long as the
    two, whose column of a label is what reindexing on the union of the
    labels gives. *)
Lemma concat_Ok (a b d : DataFrame) :
  concat a b = Ok d ->
  index_len d = (index_len a + index_len b)%nat
  /\ forall c, lookup_col c (columns d)
               = lookup_col c (columns (reindexed a b)).
Proof.
  unfold concat.
  destruct (list_eq_dec string_dec (map fst (columns a)) (map fst (columns b)))
    as [E|_].
  - intro H. inversion H; subst d; clear H. split; [reflexivity|].
    intro c. cbn [columns reindexed]. rewrite (lookup_col_stack c _ _ E).
    rewrite (lookup_col_map
               (fun c => (col_or_null a c ++ col_or_null b c)%list)).
    rewrite mem_union_cols. unfold col_or_null.
    destruct (lookup_col c (columns a)) as [la|] eqn:Ea;
      destruct (lookup_col c (columns b)) as [lb|] eqn:Eb.
    + now rewrite (lookup_col_mem _ _ _ Ea).
    + apply lookup_col_mem in Ea. rewrite E in Ea.
      destruct (mem_lookup_col _ _ Ea) as (l & Hl). congruence.
    + apply lookup_col_mem in Eb. rewrite <- E in Eb.
      destruct (mem_lookup_col _ _ Eb) as (l & Hl). congruence.
    + destruct (mem c (map fst (columns a))) eqn:Ma.
      * destruct (mem_lookup_col _ _ Ma) as (l & Hl). congruence.
      * rewrite <- E, Ma. reflexivity.
  - destruct (repeats (map fst (columns a)) || repeats (map fst (columns b)));
      [discriminate|].
    intro H. inversion H. split; reflexivity.
Qed.

Lemma getitem_concat_reindexed (a b d : DataFrame) (c : string) :
  concat a b = Ok d -> getitem d c = getitem (reindexed a b) c.
Proof.
  intro Hc. unfold getitem. now rewrite (proj2 (concat_Ok _ _ _ Hc) c).
Qed.

(** A column of [pd.concat([a, b])] is the column of [a] followed by the
    column of [b]. *)
Lemma getitem_concat (a b d : DataFrame) (c : string) (l : list value) :
  getitem d c = Ok l ->
  concat a b = Ok d ->
  l = (col_or_null a c ++ col_or_null b c)%list.
Proof.
  intros H Hc. revert H. rewrite (getitem_concat_reindexed _ _ _ c Hc).
  unfold getitem, reindexed. simpl.
  rewrite (lookup_col_map (fun c => (col_or_null a c ++ col_or_null b c)%list)).
  destruct (mem c (union_cols a b)); [|discriminate].
  intro H. now inversion H.
Qed.

Lemma dropna_In (l : list value) (v : value) :
  In v (dropna l) <-> In v l /\ isna v = false.
Proof.
  unfold dropna. rewrite filter_In. now rewrite negb_true_iff.
Qed.

Lemma repeat_null_not_observed (n : nat) (v : value) :
  ~ In v (dropna (repeat VNull n)).
Proof.
  rewrite dropna_In. intros [Hin Hna].
  apply repeat_spec in Hin. subst. discriminate.
Qed.

Lemma existsb_value_eqb (v : value) (l : list value) :
  existsb (value_eqb v) l = true <-> In v l.
Proof.
  rewrite existsb_exists. unfold value_eqb. split.
  - intros (w & Hin & Heq). destruct (value_eq_dec v w); [now subst|discriminate].
  - intro Hin. exists v. split; [exact Hin|].
    destruct (value_eq_dec v v); congruence.
Qed.

Lemma unique_from_spec (l : list value) :
  forall seen,
    NoDup (unique_from seen l)
    /\ forall v, In v (unique_from seen l) <-> In v l /\ ~ In v seen.
Proof.
  induction l as [|x l IH]; intro seen; simpl.
  - split; [constructor|]. intro v. tauto.
  - destruct (existsb (value_eqb x) seen) eqn:E.
    + apply existsb_value_eqb in E.
      destruct (IH seen) as [Hnd Hin]. split; [exact Hnd|].
      intro v. rewrite Hin. split.
      * intros [H1 H2]. auto.
      * intros [[->|H1] H2]; [contradiction|auto].
    + assert (Hx : ~ In x seen).
      { intro Hin. apply existsb_value_eqb in Hin. congruence. }
      destruct (IH (x :: seen)) as [Hnd Hin]. split.
      * constructor; [|exact Hnd]. rewrite Hin. simpl. tauto.
      * intro v. simpl. rewrite Hin. simpl. split.
        -- intros [->|[H1 H2]]; [auto|]. split; [auto|tauto].
        -- intros [[->|H1] H2]; [auto|].
           destruct (value_eq_dec x v) as [->|Hne]; [auto|].
           right. split; [exact H1|]. tauto.
Qed.

Lemma unique_NoDup (l : list value) : NoDup (unique l).
Proof.
  apply unique_from_spec.
Qed.

Lemma unique_In (l : list value) (v : value) : In v (unique l) <-> In v l.
Proof.
  unfold unique. destruct (unique_from_spec l []) as [_ H].
  rewrite H. simpl. tauto.
Qed.

(** Pandas' own order of first appearance is one of the orders a set may
    take. *)
Lemma unique_set_list_spec : set_list_spec unique.
Proof.
  intro l. split; [apply unique_NoDup|apply unique_In].
Qed.

Lemma py_range_keys (n : nat) :
  map VInt (py_range 1 (Z.of_nat n + 1))
  = map (fun k => VInt (Z.of_nat k)) (seq 1 n).
Proof.
  unfold py_range.
  replace (Z.to_nat (Z.of_nat n + 1 - 1)) with n by lia.
  rewrite map_map, <- seq_shift, map_map.
  apply map_ext. intro k. f_equal. lia.
Qed.

(** Lines 66-67 on names without repetition build a canonical table. *)
Lemma dimension_table_canonical (name_col id_col : string)
  (names : list value) (dim : DataFrame) :
  name_col <> id_col ->
  NoDup names ->
  dimension_table name_col id_col names = Ok dim ->
  canonical_table dim name_col id_col.
Proof.
  intros Hne Hnd Hdim.
  destruct (dimension_table_columns _ _ _ _ Hne Hdim) as (Hlen & Hn & Hi).
  exists names. rewrite <- py_range_keys. auto.
Qed.

(** ** The canonical tables of a run *)

(** C6.  After every run that completes, whatever order [list(set(...))]
    takes, the team, player and competition tables have names without
    repetition and the keys 1, 2, ..., N, N the number of rows. *)
Theorem canonical_tables_dense_keys :
  forall (scorer : string -> string -> Q)
         (to_datetime : list value -> list (option Z))
         (set_list : list value -> list value)
         (gm gt wo wg wm : DataFrame) (out : tables) (h : store),
    (forall l, NoDup (set_list l)) ->
    run_transform scorer to_datetime set_list gm gt wo wg wm = Ok (out, h) ->
    canonical_table (nth (dim_team out) h empty_frame)
      "team_name_std" "team_id"
    /\ canonical_table (nth (dim_player out) h empty_frame)
         "player_name_std" "player_id"
    /\ canonical_table (nth (dim_competition out) h empty_frame)
         "competition" "competition_id".
Proof.
  intros scorer to_datetime set_list gm gt wo wg wm out h Hset H.
  unfold run_transform, transform_data in H. run_step H.
  cbn [dim_team dim_player dim_competition nth].
  repeat split;
    match goal with
    | Hd : dimension_table ?n ?i ?names = Ok ?d |- canonical_table ?d ?n ?i =>
        apply (dimension_table_canonical n i names d);
        [discriminate| |exact Hd]
    end;
    first [unfold all_names; apply Hset | apply unique_NoDup].
Qed.

Lemma canonical_tables_dense_keys_witness :
  exists out h,
    sample_run = Ok (out, h)
    /\ canonical_table (nth (dim_team out) h empty_frame)
         "team_name_std" "team_id"
    /\ canonical_table (nth (dim_player out) h empty_frame)
         "player_name_std" "player_id"
    /\ canonical_table (nth (dim_competition out) h empty_frame)
         "competition" "competition_id".
Proof.
  eexists. eexists. split; [vm_compute; reflexivity|].
  apply (canonical_tables_dense_keys exact_scorer to_datetime_iso unique
           sample_gps_match sample_gps_training sample_wyscout_outfield
           sample_wyscout_goalkeeper sample_wyscout_matches).
  - apply unique_NoDup.
  - vm_compute. reflexivity.
Defined.

Lemma observed_getitem (df : DataFrame) (c : string) (l : list value)
  (v : value) :
  getitem df c = Ok l -> (observed df c v <-> In v (dropna l)).
Proof.
  unfold getitem, observed, col_or_null.
  destruct (lookup_col c (columns df)); [|discriminate].
  intro H. inversion H. tauto.
Qed.

Lemma dropna_app (a b : list value) :
  dropna (a ++ b) = (dropna a ++ dropna b)%list.
Proof.
  apply filter_app.
Qed.

(** The cells of a column of [pd.concat([a, b])] that are not missing are
    those of [a] and those of [b]. *)
Lemma observed_concat (a b d : DataFrame) (c : string) (l : list value)
  (v : value) :
  getitem d c = Ok l ->
  concat a b = Ok d ->
  (In v (dropna l) <-> observed a c v \/ observed b c v).
Proof.
  intros H Hc. apply (getitem_concat a b) in H; [|exact Hc]. subst l.
  rewrite dropna_app, in_app_iff. reflexivity.
Qed.

Lemma observed_with_col_other (df : DataFrame) (c c' : string)
  (l : list value) (v : value) :
  c <> c' -> (observed (with_col df c' l) c v <-> observed df c v).
Proof.
  intro Hne. unfold observed. now rewrite col_or_null_with_col_other.
Qed.

Lemma all_names_In (set_list : list value -> list value)
  (gps outfield goalkeeper : list value) (v : value) :
  set_list_spec set_list ->
  (In v (all_names set_list gps outfield goalkeeper)
   <-> In v (dropna gps) \/ In v (dropna outfield) \/ In v (dropna goalkeeper)).
Proof.
  intro Hset. unfold all_names. destruct (Hset (unique (dropna gps)
    ++ unique (dropna (outfield ++ goalkeeper)))%list) as [_ Hin].
  rewrite Hin, in_app_iff, !unique_In, dropna_app, in_app_iff. reflexivity.
Qed.

Lemma one_row_each_iff (names : list value) (seen : value -> Prop) :
  NoDup names -> (forall v, In v names <-> seen v) ->
  one_row_each names seen.
Proof.
  intros Hnd Hiff v. split.
  - intro Hv. apply NoDup_count_occ'; [exact Hnd|]. now apply Hiff.
  - apply Hiff.
Qed.

(** C7, as stated, fails for the names of "any source table": lines 63-64
    do not read the team names of the match table.  A team that only the
    match table names has no row in the team table, and line 96 gives its
    match rows no key. *)
Lemma match_only_team_counterexample :
  exists out h,
    run_transform exact_scorer to_datetime_iso unique
      sample_gps_match sample_gps_training sample_wyscout_outfield
      sample_wyscout_goalkeeper sample_wyscout_matches_other_team
    = Ok (out, h)
    /\ observed sample_wyscout_matches_other_team "team_name"
         (VStr "Real Madrid")
    /\ getitem (nth (dim_team out) h empty_frame) "team_name_std"
       = Ok [VStr "FC Alpha"; VStr "Alpha FC"]
    /\ getitem (nth (fact_wyscout_match out) h empty_frame) "team_name"
       = Ok [VStr "FC Alpha"; VStr "Real Madrid"]
    /\ getitem (nth (fact_wyscout_match out) h empty_frame) "team_id"
       = Ok [VInt 1; VNull].
Proof.
  eexists. eexists. split; [vm_compute; reflexivity|].
  repeat split; try (vm_compute; reflexivity).
  right. left. reflexivity.
Qed.

(** C7, amended.  After every run that completes, the rows of a canonical
    table are the values observed in the columns its builder reads, compared
    by equality alone: the team names of the two GPS tables and of the two
    player tables (those of the match table take no part), the player names
    of the same four tables, and the competitions of the match table.  Each
    observed value has exactly one row, however many tables and rows it was
    observed in, and two observed values that differ have a row each.  The
    scorer has no part in it. *)
Theorem names_deduplicated_by_equality :
  forall (scorer : string -> string -> Q)
         (to_datetime : list value -> list (option Z))
         (set_list : list value -> list value)
         (gm gt wo wg wm : DataFrame) (out : tables) (h : store),
    set_list_spec set_list ->
    run_transform scorer to_datetime set_list gm gt wo wg wm = Ok (out, h) ->
    (exists teams,
        getitem (nth (dim_team out) h empty_frame) "team_name_std" = Ok teams
        /\ one_row_each teams
             (fun v => observed gm "team_name" v \/ observed gt "team_name" v
                       \/ observed wo "team_name" v
                       \/ observed wg "team_name" v))
    /\ (exists players,
           getitem (nth (dim_player out) h empty_frame) "player_name_std"
           = Ok players
           /\ one_row_each players
                (fun v => observed gm "name" v \/ observed gt "name" v
                          \/ observed wo "player" v \/ observed wg "player" v))
    /\ (exists competitions,
           getitem (nth (dim_competition out) h empty_frame) "competition"
           = Ok competitions
           /\ one_row_each competitions
                (fun v => observed wm "competition" v)).
Proof.
  intros scorer to_datetime set_list gm gt wo wg wm out h Hset H.
  unfold run_transform, transform_data in H. run_step H.
  cbn [dim_team dim_player dim_competition nth].
  repeat match goal with
  | Hg : getitem (with_col _ "date" _) ?c = Ok _ |- _ =>
      rewrite getitem_with_col_other in Hg by discriminate
  end.
  repeat match goal with
  | Hd : dimension_table ?n ?i ?names = Ok ?d |- _ =>
      destruct (dimension_table_columns n i names d ltac:(discriminate) Hd)
        as (_ & ? & _);
      clear Hd
  end.
  assert (Hgps : forall c l v, c <> "session_type" ->
            getitem stacked c = Ok l ->
            (In v (dropna l) <-> observed gm c v \/ observed gt c v)).
  { intros c l v Hc Hl. rewrite (observed_concat _ _ _ _ _ v Hl Hconcat).
    unfold setitem_scalar. now rewrite !observed_with_col_other. }
  split; [|split]; eexists; (split; [eassumption|]).
  - apply one_row_each_iff; [unfold all_names; apply Hset|].
    intro v. rewrite all_names_In by exact Hset.
    rewrite (Hgps "team_name") by (discriminate || eassumption).
    rewrite <- (observed_getitem wo "team_name") by eassumption.
    rewrite <- (observed_getitem wg "team_name") by eassumption.
    tauto.
  - apply one_row_each_iff; [unfold all_names; apply Hset|].
    intro v. rewrite all_names_In by exact Hset.
    rewrite (Hgps "name") by (discriminate || eassumption).
    rewrite <- (observed_getitem wo "player") by eassumption.
    rewrite <- (observed_getitem wg "player") by eassumption.
    tauto.
  - apply one_row_each_iff; [apply unique_NoDup|].
    intro v. rewrite unique_In.
    now rewrite <- (observed_getitem wm "competition") by eassumption.
Qed.

Lemma names_deduplicated_by_equality_witness :
  exists out h,
    sample_run = Ok (out, h)
    /\ exists teams,
        getitem (nth (dim_team out) h empty_frame) "team_name_std" = Ok teams
        /\ one_row_each teams
             (fun v => observed sample_gps_match "team_name" v
                       \/ observed sample_gps_training "team_name" v
                       \/ observed sample_wyscout_outfield "team_name" v
                       \/ observed sample_wyscout_goalkeeper "team_name" v).
Proof.
  eexists. eexists. split; [vm_compute; reflexivity|].
  apply (names_deduplicated_by_equality exact_scorer to_datetime_iso unique
           sample_gps_match sample_gps_training sample_wyscout_outfield
           sample_wyscout_goalkeeper sample_wyscout_matches).
  - apply unique_set_list_spec.
  - vm_compute. reflexivity.
Defined.

(** ** The input tables after a run *)

(** C9, as stated, fails: in the sample run the GPS match table has gained a
    column and the match table holds parsed dates and two key columns. *)
Lemma inputs_unchanged_counterexample :
  exists out h,
    sample_run = Ok (out, h)
    /\ getitem sample_gps_match "session_type" = Raise (KeyError "session_type")
    /\ getitem (nth 0 h empty_frame) "session_type"
       = Ok [VStr "match"; VStr "match"]
    /\ getitem sample_wyscout_matches "date"
       = Ok [VStr "2024-01-02"; VStr "2024-01-02"]
    /\ getitem (nth 4 h empty_frame) "date"
       = Ok [VTime 1704153600000000000; VTime 1704153600000000000]
    /\ getitem (nth 4 h empty_frame) "team_id" = Ok [VInt 1; VInt 1]
    /\ nth 0 h empty_frame <> sample_gps_match
    /\ nth 4 h empty_frame <> sample_wyscout_matches.
Proof.
  eexists. eexists. split; [vm_compute; reflexivity|].
  cbn [nth]. repeat split; try reflexivity;
    unfold sample_gps_match, sample_wyscout_matches; intro Heq;
    inversion Heq.
Qed.

(** C9, amended.  A run that completes has written into the five input
    tables: the GPS tables have the column [session_type]; the two player
    tables have their dates parsed and the columns [team_id], [player_id] and
    [player_type]; the match table has its dates parsed and the columns
    [team_id] and [competition_id], and it is the very table returned as
    [fact_wyscout_match].  Nothing else of an input table is written. *)
Theorem transform_writes_inputs :
  forall (scorer : string -> string -> Q)
         (to_datetime : list value -> list (option Z))
         (set_list : list value -> list value)
         (gm gt wo wg wm : DataFrame) (out : tables) (h : store),
    run_transform scorer to_datetime set_list gm gt wo wg wm = Ok (out, h) ->
    nth 0 h empty_frame = setitem_scalar gm "session_type" (VStr "match")
    /\ nth 1 h empty_frame
       = setitem_scalar gt "session_type" (VStr "training")
    /\ (exists dates team_ids player_ids,
           getitem wo "date" = Ok dates
           /\ nth 2 h empty_frame
              = setitem_scalar
                  (with_col
                     (with_col
                        (with_col wo "date"
                           (map time_cell (to_datetime dates)))
                        "team_id" team_ids)
                     "player_id" player_ids)
                  "player_type" (VStr "outfield"))
    /\ (exists dates team_ids player_ids,
           getitem wg "date" = Ok dates
           /\ nth 3 h empty_frame
              = setitem_scalar
                  (with_col
                     (with_col
                        (with_col wg "date"
                           (map time_cell (to_datetime dates)))
                        "team_id" team_ids)
                     "player_id" player_ids)
                  "player_type" (VStr "goalkeeper"))
    /\ (exists dates team_ids competition_ids,
           getitem wm "date" = Ok dates
           /\ nth 4 h empty_frame
              = with_col
                  (with_col
                     (with_col wm "date" (map time_cell (to_datetime dates)))
                     "team_id" team_ids)
                  "competition_id" competition_ids)
    /\ fact_wyscout_match out = 4%nat.
Proof.
  intros scorer to_datetime set_list gm gt wo wg wm out h H.
  unfold run_transform, transform_data in H. run_step H.
  cbn [fact_wyscout_match nth].
  repeat split; try reflexivity;
    do 3 eexists; (split; [eassumption|reflexivity]).
Qed.

Lemma transform_writes_inputs_witness :
  exists out h,
    sample_run = Ok (out, h)
    /\ nth 0 h empty_frame
       = setitem_scalar sample_gps_match "session_type" (VStr "match")
    /\ fact_wyscout_match out = 4%nat.
Proof.
  eexists. eexists. split; [vm_compute; reflexivity|].
  pose proof (transform_writes_inputs exact_scorer to_datetime_iso unique
                sample_gps_match sample_gps_training sample_wyscout_outfield
                sample_wyscout_goalkeeper sample_wyscout_matches _ _
                ltac:(vm_compute; reflexivity)) as H.
  split; [exact (proj1 H)|].
  exact (proj2 (proj2 (proj2 (proj2 (proj2 H))))).
Defined.

(** ** Dates *)

Lemma series_min_spec (l : list value) :
  (exists m, series_min l = VTime m /\ earliest m l)
  \/ (series_min l = VNaT /\ forall t, ~ In (VTime t) l).
Proof.
  unfold earliest.
  induction l as [|v l IH]; simpl.
  - right. split; [reflexivity|]. intros t [].
  - destruct IH as [(m & Hm & Hin & Hle)|[Hnat Hnone]].
    + left. destruct v as [| |s|n|t]; rewrite ?Hm;
        try (exists m; repeat split; [now right|];
             intros t' [Heq|Ht']; [discriminate|now apply Hle]).
      exists (Z.min t m). repeat split.
      * destruct (Z.min_spec t m) as [[_ ->]|[_ ->]]; [now left|now right].
      * intros t' [Heq|Ht'].
        -- inversion Heq; subst. apply Z.le_min_l.
        -- specialize (Hle t' Ht'). lia.
    + destruct v as [| |s|n|t]; rewrite ?Hnat;
        try (right; split; [reflexivity|];
             intros t' [Heq|Ht']; [discriminate|now apply (Hnone t')]).
      left. exists t. repeat split; [now left|].
      intros t' [Heq|Ht']; [inversion Heq; lia|now destruct (Hnone t')].
Qed.

Lemma series_max_spec (l : list value) :
  (exists m, series_max l = VTime m /\ latest m l)
  \/ (series_max l = VNaT /\ forall t, ~ In (VTime t) l).
Proof.
  unfold latest.
  induction l as [|v l IH]; simpl.
  - right. split; [reflexivity|]. intros t [].
  - destruct IH as [(m & Hm & Hin & Hle)|[Hnat Hnone]].
    + left. destruct v as [| |s|n|t]; rewrite ?Hm;
        try (exists m; repeat split; [now right|];
             intros t' [Heq|Ht']; [discriminate|now apply Hle]).
      exists (Z.max t m). repeat split.
      * destruct (Z.max_spec t m) as [[_ ->]|[_ ->]]; [now right|now left].
      * intros t' [Heq|Ht'].
        -- inversion Heq; subst. apply Z.le_max_l.
        -- specialize (Hle t' Ht'). lia.
    + destruct v as [| |s|n|t]; rewrite ?Hnat;
        try (right; split; [reflexivity|];
             intros t' [Heq|Ht']; [discriminate|now apply (Hnone t')]).
      left. exists t. repeat split; [now left|].
      intros t' [Heq|Ht']; [inversion Heq; lia|now destruct (Hnone t')].
Qed.

(** Line 50: when [min(a.min(), b.min())] is a timestamp, it is the earliest
    of both columns. *)
Lemma py_min_earliest (g w : list value) (lo : Z) :
  py_min (series_min g) (series_min w) = VTime lo ->
  earliest lo (g ++ w).
Proof.
  unfold py_min, earliest.
  destruct (series_min_spec g) as [(a & -> & Ha & Hale)|[-> _]];
    destruct (series_min_spec w) as [(b & -> & Hb & Hble)|[-> Hnone]]; simpl;
    try discriminate.
  - destruct (Z.ltb_spec b a) as [Hlt|Hge]; intro H; inversion H; subst lo;
      split.
    + apply in_or_app. now right.
    + intros t Ht. apply in_app_or in Ht.
      destruct Ht as [Ht|Ht]; [specialize (Hale t Ht); lia|now apply Hble].
    + apply in_or_app. now left.
    + intros t Ht. apply in_app_or in Ht.
      destruct Ht as [Ht|Ht]; [now apply Hale|specialize (Hble t Ht); lia].
  - intro H. inversion H; subst lo. split.
    + apply in_or_app. now left.
    + intros t Ht. apply in_app_or in Ht.
      destruct Ht as [Ht|Ht]; [now apply Hale|now destruct (Hnone t)].
Qed.

Lemma py_max_latest (g w : list value) (hi : Z) :
  py_max (series_max g) (series_max w) = VTime hi ->
  latest hi (g ++ w).
Proof.
  unfold py_max, latest.
  destruct (series_max_spec g) as [(a & -> & Ha & Hale)|[-> _]];
    destruct (series_max_spec w) as [(b & -> & Hb & Hble)|[-> Hnone]]; simpl;
    try discriminate.
  - destruct (Z.ltb_spec a b) as [Hlt|Hge]; intro H; inversion H; subst hi;
      split.
    + apply in_or_app. now right.
    + intros t Ht. apply in_app_or in Ht.
      destruct Ht as [Ht|Ht]; [specialize (Hale t Ht); lia|now apply Hble].
    + apply in_or_app. now left.
    + intros t Ht. apply in_app_or in Ht.
      destruct Ht as [Ht|Ht]; [now apply Hale|specialize (Hble t Ht); lia].
  - intro H. inversion H; subst hi. split.
    + apply in_or_app. now left.
    + intros t Ht. apply in_app_or in Ht.
      destruct Ht as [Ht|Ht]; [now apply Hale|now destruct (Hnone t)].
Qed.

(** Lines 50-52: a date range that is produced runs daily from the earliest
    to the latest date of the two columns. *)
Lemma date_range_Ok (g w : list value) (range : list Z) :
  date_range (py_min (series_min g) (series_min w))
    (py_max (series_max g) (series_max w)) = Ok range ->
  exists lo hi,
    earliest lo (g ++ w) /\ latest hi (g ++ w) /\ lo <= hi
    /\ range = daily lo (Z.to_nat ((hi - lo) / day_ns + 1)).
Proof.
  unfold date_range.
  destruct (py_min (series_min g) (series_min w)) as [| |?|?|lo] eqn:Emin;
    try discriminate.
  destruct (py_max (series_max g) (series_max w)) as [| |?|?|hi] eqn:Emax;
    try discriminate.
  apply py_min_earliest in Emin. apply py_max_latest in Emax.
  assert (Hle : lo <= hi) by (apply Emax; apply Emin).
  destruct (Z.leb_spec lo hi) as [_|Hgt]; [|lia].
  intro H. inversion H. now exists lo, hi.
Qed.

Lemma daily_length (start : Z) (n : nat) : List.length (daily start n) = n.
Proof.
  unfold daily. now rewrite length_map, length_seq.
Qed.

Lemma daily_nth (start : Z) (n k : nat) :
  (k < n)%nat -> nth k (daily start n) 0 = start + Z.of_nat k * day_ns.
Proof.
  intro Hk. apply nth_error_nth. unfold daily.
  rewrite nth_error_map, nth_error_seq.
  destruct (Nat.ltb_spec k n); [reflexivity|lia].
Qed.

(** A day later is the next calendar day. *)
Lemma days_of_daily (start : Z) (k : nat) :
  days_of (start + Z.of_nat k * day_ns) = days_of start + Z.of_nat k.
Proof.
  unfold days_of. apply Z.div_add. discriminate.
Qed.

Lemma daily_within (lo hi : Z) (k : nat) :
  lo <= hi -> (k < Z.to_nat ((hi - lo) / day_ns + 1))%nat ->
  lo <= lo + Z.of_nat k * day_ns <= hi.
Proof.
  intros Hle Hk. unfold day_ns in *.
  assert (Hq : 0 <= (hi - lo) / (86400 * 1000000000))
    by (apply Z.div_pos; lia).
  assert (Hk' : Z.of_nat k <= (hi - lo) / (86400 * 1000000000)) by lia.
  pose proof (Z.mul_div_le (hi - lo) (86400 * 1000000000) ltac:(lia)).
  nia.
Qed.

(** Month and day of a day number are a month and a day. *)
Lemma civil_of_days_month_day (days : Z) :
  1 <= snd (fst (civil_of_days days)) <= 12
  /\ 1 <= snd (civil_of_days days) <= 31.
Proof.
  unfold civil_of_days.
  set (z := days + 719468).
  set (doe := z - z / 146097 * 146097).
  assert (Hdoe : 0 <= doe < 146097).
  { subst doe. pose proof (Z.mod_pos_bound z 146097 ltac:(lia)) as Hm.
    rewrite Z.mod_eq in Hm by lia. lia. }
  set (yoe := (doe - doe / 1460 + doe / 36524 - doe / 146096) / 365).
  set (doy := doe - (365 * yoe + yoe / 4 - yoe / 100)).
  assert (Hdoy : 0 <= doy <= 365).
  { subst doy yoe. clearbody doe. clear z. Z.div_mod_to_equations. lia. }
  clearbody doy. clear Hdoe. clearbody yoe doe.
  set (mp := (5 * doy + 2) / 153).
  assert (Hmp : 0 <= mp <= 11 /\ 1 <= doy - (153 * mp + 2) / 5 + 1 <= 31).
  { subst mp. Z.div_mod_to_equations. lia. }
  clearbody mp. cbn [fst snd].
  destruct (Z.ltb_spec mp 10); lia.
Qed.

(** A timestamp of pandas is a 64-bit count of nanoseconds; its year has
    four digits. *)
Lemma year_four_digits (t : Z) :
  - 2 ^ 63 <= t < 2 ^ 63 -> 1000 <= year t <= 9999.
Proof.
  intro Ht. unfold year, days_of, civil_of_days, day_ns.
  set (days := t / (86400 * 1000000000)).
  assert (Hdays : -106752 <= days <= 106751).
  { subst days. change (2 ^ 63) with 9223372036854775808 in Ht.
    Z.div_mod_to_equations. lia. }
  clearbody days.
  set (z := days + 719468).
  set (doe := z - z / 146097 * 146097).
  assert (Hera : 4 <= z / 146097 <= 5)
    by (subst z; Z.div_mod_to_equations; lia).
  assert (Hdoe : 0 <= doe < 146097).
  { subst doe. pose proof (Z.mod_pos_bound z 146097 ltac:(lia)) as Hm.
    rewrite Z.mod_eq in Hm by lia. lia. }
  set (yoe := (doe - doe / 1460 + doe / 36524 - doe / 146096) / 365).
  assert (Hyoe : 0 <= yoe <= 399).
  { subst yoe. clearbody doe. clear Hera. Z.div_mod_to_equations. lia. }
  clearbody yoe. cbn [fst snd].
  match goal with |- context [if ?b then _ else _] => destruct b end; lia.
Qed.

(** The digits of a date key are those of the year, the month and the day. *)
Lemma yyyymmdd_digits (t : Z) :
  yyyymmdd t / 10000 = year t
  /\ (yyyymmdd t / 100) mod 100 = month t
  /\ yyyymmdd t mod 100 = day t.
Proof.
  unfold yyyymmdd, year, month, day.
  destruct (civil_of_days_month_day (days_of t)) as [Hm Hd].
  set (y := fst (fst (civil_of_days (days_of t)))) in *.
  set (m := snd (fst (civil_of_days (days_of t)))) in *.
  set (d := snd (civil_of_days (days_of t))) in *.
  clearbody y m d. Z.div_mod_to_equations. lia.
Qed.

Lemma yyyymmdd_eight_digits (t : Z) :
  - 2 ^ 63 <= t < 2 ^ 63 -> 10000000 <= yyyymmdd t <= 99999999.
Proof.
  intro Ht. pose proof (year_four_digits t Ht) as Hy.
  unfold yyyymmdd, month, day in *.
  destruct (civil_of_days_month_day (days_of t)) as [Hm Hd]. lia.
Qed.

(** From a midnight on, the whole days up to [hi] are the calendar days up to
    the day of [hi]. *)
Lemma midnight_span (lo hi : Z) :
  lo mod day_ns = 0 -> (hi - lo) / day_ns = days_of hi - days_of lo.
Proof.
  intro Hmid. unfold days_of.
  assert (Hlo : lo = lo / day_ns * day_ns).
  { pose proof (Z.div_mod lo day_ns ltac:(discriminate)). lia. }
  replace (hi - lo) with (hi + - (lo / day_ns) * day_ns) by lia.
  rewrite Z.div_add by discriminate. lia.
Qed.

(** C5, as stated, fails: the range is taken over the GPS and the match
    dates only.  In the sample run the fact tables hold dates from
    2023-12-25 to 2024-01-03, ten days, the earliest in the player table;
    the date table has the three days from 2024-01-01 on. *)
Lemma date_range_over_all_facts_counterexample :
  exists out h,
    sample_run = Ok (out, h)
    /\ series_min (fact_dates out h) = VTime 1703462400000000000
    /\ series_max (fact_dates out h) = VTime 1704240000000000000
    /\ yyyymmdd 1703462400000000000 = 20231225
    /\ (1704240000000000000 - 1703462400000000000) / day_ns + 1 = 10
    /\ index_len (nth (dim_date out) h empty_frame) = 3%nat
    /\ getitem (nth (dim_date out) h empty_frame) "date_key"
       = Ok [VInt 20240101; VInt 20240102; VInt 20240103].
Proof.
  eexists. eexists. split; [vm_compute; reflexivity|].
  repeat split; vm_compute; reflexivity.
Qed.

(** C5, amended.  After every run that completes, the date table is the
    daily calendar from the earliest to the latest date of the GPS fact table
    and the match table (the dates of the player tables take no part): it
    has (date_max - date_min).days + 1 rows, row k is k days after date_min
    and lies within the range, consecutive rows are consecutive calendar
    days, and the key of a row is its date written YYYYMMDD, eight digits
    for a 64-bit timestamp.  When date_min is a midnight, every calendar day
    from the day of date_min to the day of date_max has exactly one row. *)
Theorem date_dimension_daily_calendar :
  forall (scorer : string -> string -> Q)
         (to_datetime : list value -> list (option Z))
         (set_list : list value -> list value)
         (gm gt wo wg wm : DataFrame) (out : tables) (h : store),
    run_transform scorer to_datetime set_list gm gt wo wg wm = Ok (out, h) ->
    exists gps_dates match_dates lo hi n range,
      getitem (nth (fact_player_gps out) h empty_frame) "date" = Ok gps_dates
      /\ getitem (nth (fact_wyscout_match out) h empty_frame) "date"
         = Ok match_dates
      /\ earliest lo (gps_dates ++ match_dates)
      /\ latest hi (gps_dates ++ match_dates)
      /\ n = Z.to_nat ((hi - lo) / day_ns + 1)
      /\ range = daily lo n
      /\ nth (dim_date out) h empty_frame = dim_date_frame range
      /\ index_len (nth (dim_date out) h empty_frame) = n
      /\ getitem (nth (dim_date out) h empty_frame) "date"
         = Ok (map VTime range)
      /\ getitem (nth (dim_date out) h empty_frame) "date_key"
         = Ok (map (fun t => VInt (yyyymmdd t)) range)
      /\ (lo mod day_ns = 0 ->
          forall d, days_of lo <= d <= days_of hi ->
            exists k, (k < n)%nat /\ days_of (nth k range 0) = d
                      /\ forall k', (k' < n)%nat ->
                                    days_of (nth k' range 0) = d -> k' = k)
      /\ forall k, (k < n)%nat ->
           nth k range 0 = lo + Z.of_nat k * day_ns
           /\ lo <= nth k range 0 <= hi
           /\ days_of (nth k range 0) = days_of lo + Z.of_nat k
           /\ yyyymmdd (nth k range 0) / 10000 = year (nth k range 0)
           /\ (yyyymmdd (nth k range 0) / 100) mod 100 = month (nth k range 0)
           /\ yyyymmdd (nth k range 0) mod 100 = day (nth k range 0)
           /\ (- 2 ^ 63 <= nth k range 0 < 2 ^ 63 ->
               10000000 <= yyyymmdd (nth k range 0) <= 99999999).
Proof.
  intros scorer to_datetime set_list gm gt wo wg wm out h H.
  unfold run_transform, transform_data in H. run_step H.
  cbn [fact_player_gps fact_wyscout_match dim_date nth].
  match goal with
  | Hr : date_range _ _ = Ok ?r |- _ =>
      apply date_range_Ok in Hr;
      destruct Hr as (lo & hi & Hlo & Hhi & Hle & Hrange)
  end.
  match goal with
  | Hg : getitem (with_col stacked "date" _) "date" = Ok ?g,
    Hw : getitem (with_col wm "date" _) "date" = Ok ?w |- _ =>
      exists g, w, lo, hi, (Z.to_nat ((hi - lo) / day_ns + 1)),
        (daily lo (Z.to_nat ((hi - lo) / day_ns + 1)));
      rewrite !getitem_with_col_other by discriminate;
      rewrite Hg;
      rewrite !getitem_with_col_other by discriminate;
      rewrite Hw
  end.
  subst.
  split; [reflexivity|]. split; [reflexivity|].
  split; [exact Hlo|]. split; [exact Hhi|].
  split; [reflexivity|]. split; [reflexivity|]. split; [reflexivity|].
  split; [apply daily_length|].
  split; [reflexivity|]. split; [reflexivity|].
  split.
  { intros Hmid d Hd. rewrite (midnight_span lo hi Hmid) in *.
    exists (Z.to_nat (d - days_of lo)).
    split; [lia|]. split.
    - rewrite daily_nth by lia. rewrite days_of_daily. lia.
    - intros k' Hk' Hday. rewrite daily_nth in Hday by exact Hk'.
      rewrite days_of_daily in Hday. lia. }
  intros k Hk. rewrite daily_nth by exact Hk.
  split; [reflexivity|].
  split; [now apply daily_within|].
  split; [apply days_of_daily|].
  split; [apply yyyymmdd_digits|].
  split; [apply yyyymmdd_digits|].
  split; [apply yyyymmdd_digits|].
  apply yyyymmdd_eight_digits.
Qed.

Lemma date_dimension_daily_calendar_witness :
  exists out h,
    sample_run = Ok (out, h)
    /\ exists gps_dates match_dates lo hi,
        getitem (nth (fact_player_gps out) h empty_frame) "date"
        = Ok gps_dates
        /\ getitem (nth (fact_wyscout_match out) h empty_frame) "date"
           = Ok match_dates
        /\ earliest lo (gps_dates ++ match_dates)
        /\ latest hi (gps_dates ++ match_dates)
        /\ nth (dim_date out) h empty_frame
           = dim_date_frame (daily lo (Z.to_nat ((hi - lo) / day_ns + 1))).
Proof.
  eexists. eexists. split; [vm_compute; reflexivity|].
  destruct (date_dimension_daily_calendar exact_scorer to_datetime_iso unique
              sample_gps_match sample_gps_training sample_wyscout_outfield
              sample_wyscout_goalkeeper sample_wyscout_matches _ _
              ltac:(vm_compute; reflexivity))
    as (g & w & lo & hi & n & range & Hg & Hw & Hlo & Hhi & Hn & Hr & Hd & _).
  exists g, w, lo, hi. subst n range. auto.
Defined.

(** ** Dates that do not parse *)

(** C4.  A date that does not parse is left out of the range: the sample run
    has one in the GPS table and completes with the range of the other
    dates.  In the match table it is fatal: its key is computed at line 101
    by [astype(int)] on a column holding [NaN], which raises [ValueError]. *)
Theorem unparseable_match_date_raises :
  (exists out h,
      sample_run = Ok (out, h)
      /\ getitem (nth (fact_player_gps out) h empty_frame) "date"
         = Ok [VTime 1704067200000000000; VNaT; VTime 1704240000000000000]
      /\ getitem (nth (dim_date out) h empty_frame) "date_key"
         = Ok [VInt 20240101; VInt 20240102; VInt 20240103])
  /\ to_datetime_iso [VStr "2024-01-02"; VStr "unknown"]
     = [Some 1704153600000000000; None]
  /\ strftime_int [VTime 1704153600000000000; VNaT] = Raise ValueError
  /\ run_transform exact_scorer to_datetime_iso unique
       sample_gps_match sample_gps_training sample_wyscout_outfield
       sample_wyscout_goalkeeper sample_wyscout_matches_bad_date
     = Raise ValueError.
Proof.
  split; [|repeat split; vm_compute; reflexivity].
  eexists. eexists. split; [vm_compute; reflexivity|].
  split; vm_compute; reflexivity.
Qed.

Lemma strftime_int_Ok (l keys : list value) :
  strftime_int l = Ok keys -> ~ In VNaT l.
Proof.
  revert keys. induction l as [|v l IH]; intros keys H; [intros []|].
  destruct v as [| |s|n|t]; simpl in H; try discriminate.
  - destruct (strftime_int l); discriminate.
  - destruct (strftime_int l) as [ks|e] eqn:E; [|discriminate].
    intros [Heq|Hin]; [discriminate|]. now apply (IH ks).
Qed.

Lemma row_eqb_true (r s : list value) : row_eqb r s = true <-> r = s.
Proof.
  unfold row_eqb. destruct (list_eq_dec value_eq_dec r s);
    split; congruence.
Qed.

(** [drop_duplicates] keeps, for every row, a row equal to it. *)
Lemma first_rows_covers (rows : list (nat * list value)) :
  forall seen i r,
    In (i, r) rows ->
    In r seen \/ exists j, In j (first_rows seen rows) /\ In (j, r) rows.
Proof.
  induction rows as [|[i0 r0] rows IH]; intros seen i r Hin; [destruct Hin|].
  simpl. destruct (existsb (row_eqb r0) seen) eqn:E.
  - destruct Hin as [Heq|Hin].
    + inversion Heq; subst. left.
      apply existsb_exists in E. destruct E as (s & Hs & Heqb).
      apply row_eqb_true in Heqb. now subst.
    + destruct (IH seen i r Hin) as [Hseen|(j & Hj & Hjr)]; [now left|].
      right. exists j. split; [exact Hj|now right].
  - destruct Hin as [Heq|Hin].
    + inversion Heq; subst. right. exists i. split; now left.
    + destruct (IH (r0 :: seen) i r Hin) as [[Heq|Hseen]|(j & Hj & Hjr)].
      * subst r0. right. exists i0. split; now left.
      * now left.
      * right. exists j. split; [now right|now right].
Qed.

(** Line 101 in general: a run whose match table has a date that does not
    parse never completes. *)
Lemma unparseable_match_date_never_completes
  (scorer : string -> string -> Q)
  (to_datetime : list value -> list (option Z))
  (set_list : list value -> list value)
  (gm gt wo wg wm : DataFrame) (dates : list value) (r : tables * store) :
  getitem wm "date" = Ok dates ->
  In None (to_datetime dates) ->
  run_transform scorer to_datetime set_list gm gt wo wg wm <> Ok r.
Proof.
  intros Hdates Hbad H. destruct r as [out h].
  unfold run_transform, transform_data in H. run_step H.
  repeat match goal with
  | Hg : getitem wm "date" = Ok ?l |- _ =>
      rewrite Hdates in Hg; inversion Hg; subst l; clear Hg
  end.
  match goal with
  | Hsel : select _ _ = Ok ?sel, Hk : strftime_int ?md = Ok _,
    Hmd : getitem (rename (drop_duplicates ?sel) _ _) "date" = Ok ?md,
    Hlen : List.length (map time_cell (to_datetime dates)) = index_len wm
    |- _ =>
      apply strftime_int_Ok in Hk; apply Hk; clear Hk;
      unfold select in Hsel; cbn [select_cols bind] in Hsel;
      rewrite !getitem_with_col_same in Hsel;
      rewrite !getitem_with_col_other in Hsel by discriminate;
      rewrite ?getitem_with_col_same in Hsel;
      rewrite !getitem_with_col_other in Hsel by discriminate;
      rewrite ?getitem_with_col_same in Hsel;
      destruct (getitem wm "match") as [ms|e]; [|discriminate];
      cbn [bind] in Hsel; inversion Hsel; subst sel; clear Hsel;
      unfold getitem, rename, drop_duplicates in Hmd;
      cbn [columns index_len map fst snd lookup_col String.eqb Ascii.eqb
           Bool.eqb] in Hmd;
      inversion Hmd; subst md; clear Hmd
  end.
  apply (in_map time_cell) in Hbad. cbn [time_cell] in Hbad.
  apply In_nth with (d := VNull) in Hbad. destruct Hbad as (i & Hi & Hnth).
  match goal with
  | |- In VNaT (map _ (first_rows [] (map ?f (seq 0 ?n)))) =>
      destruct (first_rows_covers (map f (seq 0 n)) [] i (snd (f i)))
        as [[]|(j & Hj & Hjr)]
  end.
  - apply in_map_iff. exists i. split; [reflexivity|].
    apply in_seq. cbn [with_col index_len]. lia.
  - apply in_map_iff. exists j. split; [|exact Hj].
    apply in_map_iff in Hjr. destruct Hjr as (j' & Heq & _).
    cbn [snd] in Heq. injection Heq as Hjj _ Hdate _ _. subst j'.
    now rewrite Hdate.
Qed.

(** ** Resolving against an empty table, in a run *)

Lemma apply_Ok_In (f : value -> result value) (l ws : list value) (v : value) :
  apply f l = Ok ws -> In v l -> exists w, f v = Ok w.
Proof.
  revert ws. induction l as [|x l IH]; intros ws H Hin; [destruct Hin|].
  simpl in H. destruct (f x) as [w|e] eqn:Ex; [|discriminate].
  simpl in H. destruct (apply f l) as [ws'|e] eqn:El; [|discriminate].
  destruct Hin as [<-|Hin]; [now exists w|now apply (IH ws')].
Qed.

Lemma no_element_nil {A : Type} (l : list A) : (forall x, ~ In x l) -> l = [].
Proof.
  destruct l as [|x l]; [reflexivity|]. intro H. destruct (H x). now left.
Qed.

(** Line 96 in general: a run with no team name in the GPS and player tables
    and a team name in the match table never completes. *)
Lemma empty_team_table_never_completes
  (scorer : string -> string -> Q)
  (to_datetime : list value -> list (option Z))
  (set_list : list value -> list value)
  (gm gt wo wg wm : DataFrame) (teams : list value) (team : string)
  (r : tables * store) :
  set_list_spec set_list ->
  (forall v, ~ observed gm "team_name" v) ->
  (forall v, ~ observed gt "team_name" v) ->
  (forall v, ~ observed wo "team_name" v) ->
  (forall v, ~ observed wg "team_name" v) ->
  getitem wm "team_name" = Ok teams ->
  In (VStr team) teams ->
  run_transform scorer to_datetime set_list gm gt wo wg wm <> Ok r.
Proof.
  intros Hset Hgm Hgt Hwo Hwg Hteams Hteam H. destruct r as [out h].
  unfold run_transform, transform_data in H. run_step H.
  repeat match goal with
  | Hg : getitem (with_col _ _ _) "team_name" = Ok _ |- _ =>
      rewrite getitem_with_col_other in Hg by discriminate
  end.
  match goal with
  | Hd : dimension_table "team_name_std" "team_id"
           (all_names set_list ?g ?o ?k) = Ok ?dim,
    Hg : getitem stacked "team_name" = Ok ?g,
    Ho : getitem wo "team_name" = Ok ?o,
    Hk : getitem wg "team_name" = Ok ?k,
    Hn : getitem wm "team_name" = Ok ?names,
    Hi : apply (fun x => map_name_to_id scorer x ?dim _ _) ?names = Ok _
    |- _ =>
      assert (Hnone : all_names set_list g o k = []);
      [ apply no_element_nil; intros v Hv;
        apply (all_names_In set_list g o k v Hset) in Hv;
        rewrite (observed_concat _ _ _ _ _ v Hg Hconcat) in Hv;
        unfold setitem_scalar in Hv;
        rewrite !observed_with_col_other in Hv by discriminate;
        rewrite <- (observed_getitem wo "team_name" o v Ho) in Hv;
        rewrite <- (observed_getitem wg "team_name" k v Hk) in Hv;
        destruct Hv as [[Hv|Hv]|[Hv|Hv]];
        [apply (Hgm v Hv)|apply (Hgt v Hv)|apply (Hwo v Hv)|apply (Hwg v Hv)]
      | rewrite Hnone in Hd; inversion Hd; subst dim; clear Hd;
        rewrite Hteams in Hn; inversion Hn; subst names; clear Hn;
        destruct (apply_Ok_In _ _ _ _ Hi Hteam) as (w & Hw);
        discriminate Hw ]
  end.
Qed.

(** * Further properties of the transform *)

(** ** What a match is *)

Lemma extractOne_loop_from (scorer : string -> string -> Q) (query : string)
  (choices : list value) :
  forall key best c s k,
    extractOne_loop scorer query choices key best = Ok (Some (c, s, k)) ->
    best = Some (c, s, k)
    \/ (In (VStr c) choices /\ s = scorer query c).
Proof.
  induction choices as [|v rest IH]; intros key best c s k H; simpl in H.
  - inversion H. now left.
  - destruct v as [| |ch|n|t]; try discriminate.
    + destruct (IH _ _ _ _ _ H) as [Hb|[Hin Hs]]; [now left|].
      right. split; [now right|exact Hs].
    + destruct (IH _ _ _ _ _ H) as [Hb|[Hin Hs]]; [now left|].
      right. split; [now right|exact Hs].
    + assert (Hkeep : keep_best best ch (scorer query ch) key
                      = Some (c, s, k) ->
                best = Some (c, s, k)
                \/ (In (VStr c) (VStr ch :: rest) /\ s = scorer query c)).
      { intro Hbc. unfold keep_best in Hbc.
        destruct best as [[[c0 s0] k0]|].
        - destruct (Qlt_bool s0 (scorer query ch)); [|now left].
          inversion Hbc; subst. right. split; [now left|reflexivity].
        - destruct (Qle_bool worst_score (scorer query ch)); [|discriminate].
          inversion Hbc; subst. right. split; [now left|reflexivity]. }
      destruct (Qeq_bool (scorer query ch) optimal_score).
      * injection H as Hb. now apply Hkeep.
      * destruct (IH _ _ _ _ _ H) as [Hb|[Hin Hs]].
        -- now apply Hkeep.
        -- right. split; [now right|exact Hs].
Qed.

(** What [process.extractOne] returns was scored: the query is a string,
    the choice is one of the choices, and the score is the scorer's. *)
Lemma extractOne_scored (scorer : string -> string -> Q) (query : value)
  (choices : list value) (c : string) (s : Q) (k : nat) :
  extractOne scorer query choices = Ok (Some (c, s, k)) ->
  exists q, query = VStr q /\ In (VStr c) choices /\ s = scorer q c.
Proof.
  intro H. unfold extractOne in H.
  destruct query as [| |q|n|t]; try discriminate.
  destruct (extractOne_loop_from _ _ _ _ _ _ _ _ H) as [Hb|[Hin Hs]];
    [discriminate|].
  now exists q.
Qed.

(** X1.  Whatever the scorer and the candidates, a name that [fuzzy_match]
    returns is one of the candidates and its score reaches the threshold:
    the resolver never makes up a name and never returns one below the
    threshold. *)
Theorem fuzzy_match_returns_candidate :
  forall (scorer : string -> string -> Q) (name : value)
         (choices : list value) (threshold : Q) (m : string),
    fuzzy_match scorer name choices threshold = Ok (Some m) ->
    exists q,
      name = VStr q /\ In (VStr m) choices /\ (threshold <= scorer q m)%Q.
Proof.
  intros scorer name choices threshold m H. unfold fuzzy_match in H.
  destruct (extractOne scorer name choices) as [[[[c s] k]|]|e] eqn:E;
    try discriminate.
  simpl in H. destruct (Qle_bool threshold s) eqn:Hle; [|discriminate].
  inversion H; subst c.
  destruct (extractOne_scored _ _ _ _ _ _ E) as (q & Hq & Hin & Hs).
  exists q. subst s. apply Qle_bool_iff in Hle. auto.
Qed.

Lemma fuzzy_match_returns_candidate_witness :
  exists q,
    VStr "Alpha FC" = VStr q
    /\ In (VStr "FC Alpha") [VStr ""; VStr "FC Alpha"]
    /\ (85 <= exact_scorer q "FC Alpha")%Q.
Proof.
  apply (fuzzy_match_returns_candidate exact_scorer (VStr "Alpha FC")
           [VStr ""; VStr "FC Alpha"] 85 "FC Alpha").
  reflexivity.
Defined.

(** X2.  The threshold only filters: the candidate [fuzzy_match] weighs does
    not depend on it, so a name accepted at a threshold is accepted, the
    same name, at every lower threshold, and a query rejected at a threshold
    is rejected at every higher one. *)
Theorem fuzzy_match_threshold_monotone :
  forall (scorer : string -> string -> Q) (name : value)
         (choices : list value) (low high : Q),
    (low <= high)%Q ->
    (forall m, fuzzy_match scorer name choices high = Ok (Some m) ->
               fuzzy_match scorer name choices low = Ok (Some m))
    /\ (fuzzy_match scorer name choices low = Ok None ->
        fuzzy_match scorer name choices high = Ok None).
Proof.
  intros scorer name choices low high Hle. unfold fuzzy_match.
  destruct (extractOne scorer name choices) as [[[[c s] k]|]|e]; simpl;
    split; try discriminate; try (intros; discriminate).
  - intros m H. destruct (Qle_bool high s) eqn:Eh; [|discriminate].
    apply Qle_bool_iff in Eh.
    assert (El : Qle_bool low s = true)
      by (apply Qle_bool_iff; now apply Qle_trans with high).
    now rewrite El.
  - intro H. destruct (Qle_bool low s) eqn:El; [discriminate|].
    destruct (Qle_bool high s) eqn:Eh; [|reflexivity].
    apply Qle_bool_iff in Eh.
    assert (Hl : Qle_bool low s = true)
      by (apply Qle_bool_iff; now apply Qle_trans with high).
    congruence.
Qed.

Lemma fuzzy_match_threshold_monotone_witness :
  fuzzy_match exact_scorer (VStr "Alpha FC") [VStr ""; VStr "FC Alpha"] 50
  = Ok (Some "FC Alpha").
Proof.
  apply (proj1 (fuzzy_match_threshold_monotone exact_scorer (VStr "Alpha FC")
                  [VStr ""; VStr "FC Alpha"] 50 100
                  ltac:(apply Qle_bool_iff; reflexivity))).
  reflexivity.
Defined.

Lemma loc_eq_head (names ids : list value) (v k : value) (rest : list value) :
  loc_eq names ids v = k :: rest ->
  exists i,
    nth_error names i = Some v /\ nth_error ids i = Some k
    /\ forall j, (j < i)%nat -> nth_error names j <> Some v.
Proof.
  revert ids. induction names as [|n names IH]; intros ids H;
    [discriminate|].
  destruct ids as [|i0 ids]; [discriminate|]. simpl in H.
  unfold value_eqb in H. destruct (value_eq_dec n v) as [->|Hne].
  - inversion H; subst. exists 0%nat. repeat split. intros j Hj. lia.
  - destruct (IH ids H) as (i & Hn & Hi & Hfirst).
    exists (S i). repeat split; auto.
    intros [|j] Hj; simpl; [congruence|]. apply Hfirst. lia.
Qed.

(** X3.  A key that [map_name_to_id] returns is never made up: the result is
    null, or it is the key cell of the first row of the table whose name is
    the accepted match, a non-empty name that scores at least 85 against the
    query. *)
Theorem map_name_to_id_returns_row_key :
  forall (scorer : string -> string -> Q) (name : value) (dim_df : DataFrame)
         (name_col id_col : string) (k : value),
    map_name_to_id scorer name dim_df name_col id_col = Ok k ->
    k = VNull
    \/ exists q m names ids i,
        name = VStr q
        /\ getitem dim_df name_col = Ok names
        /\ getitem dim_df id_col = Ok ids
        /\ nth_error names i = Some (VStr m)
        /\ nth_error ids i = Some k
        /\ (forall j, (j < i)%nat -> nth_error names j <> Some (VStr m))
        /\ m <> ""
        /\ (85 <= scorer q m)%Q.
Proof.
  intros scorer name dim_df name_col id_col k H. unfold map_name_to_id in H.
  destruct (isna name); [inversion H; now left|].
  destruct (getitem dim_df name_col) as [names|e] eqn:En; [|discriminate].
  cbn [bind] in H.
  destruct (fuzzy_match scorer name names default_threshold)
    as [[m|]|e] eqn:Em; try discriminate; cbn [bind] in H;
    [|inversion H; now left].
  destruct (truthy m) eqn:Et; [|inversion H; now left].
  destruct (getitem dim_df id_col) as [ids|e] eqn:Ei; [|discriminate].
  cbn [bind] in H.
  destruct (loc_eq names ids (VStr m)) as [|k' rest] eqn:El; [discriminate|].
  inversion H; subst k'.
  destruct (loc_eq_head _ _ _ _ _ El) as (i & Hn & Hi & Hfirst).
  assert (Hq : exists q, name = VStr q /\ (85 <= scorer q m)%Q).
  { unfold fuzzy_match in Em.
    destruct (extractOne scorer name names) as [[[[c s] j]|]|e] eqn:E;
      try discriminate.
    simpl in Em.
    destruct (Qle_bool default_threshold s) eqn:Hle; [|discriminate].
    inversion Em; subst c.
    destruct (extractOne_scored _ _ _ _ _ _ E) as (q & Hq & _ & Hs).
    exists q. subst s. apply Qle_bool_iff in Hle. auto. }
  destruct Hq as (q & -> & Hs).
  right. exists q, m, names, ids, i. repeat split; auto.
  intro; subst m; discriminate.
Qed.

Lemma map_name_to_id_returns_row_key_witness :
  VInt 2 = VNull
  \/ exists q m names ids i,
      VStr "Alpha FC" = VStr q
      /\ getitem (mkDF 2 [("team_name_std", [VStr ""; VStr "FC Alpha"]);
                          ("team_id", [VInt 1; VInt 2])])
           "team_name_std" = Ok names
      /\ getitem (mkDF 2 [("team_name_std", [VStr ""; VStr "FC Alpha"]);
                          ("team_id", [VInt 1; VInt 2])])
           "team_id" = Ok ids
      /\ nth_error names i = Some (VStr m)
      /\ nth_error ids i = Some (VInt 2)
      /\ (forall j, (j < i)%nat -> nth_error names j <> Some (VStr m))
      /\ m <> ""
      /\ (85 <= exact_scorer q m)%Q.
Proof.
  apply (map_name_to_id_returns_row_key exact_scorer (VStr "Alpha FC")
           (mkDF 2 [("team_name_std", [VStr ""; VStr "FC Alpha"]);
                    ("team_id", [VInt 1; VInt 2])])
           "team_name_std" "team_id" (VInt 2)).
  reflexivity.
Defined.

(** ** Names without a token *)

Lemma token_set_ratio_blank_query (interpolated : string -> string -> Q)
  (s1 s2 : string) :
  split s1 = [] -> token_set_ratio interpolated s1 s2 = 0%Q.
Proof.
  intro H. unfold token_set_ratio. rewrite H. simpl.
  now destruct (negb (truthy s1) || negb (truthy s2)).
Qed.

Lemma token_set_ratio_blank_choice (interpolated : string -> string -> Q)
  (s1 s2 : string) :
  split s2 = [] -> token_set_ratio interpolated s1 s2 = 0%Q.
Proof.
  intro H. unfold token_set_ratio. rewrite H. simpl.
  destruct (negb (truthy s1) || negb (truthy s2)); [reflexivity|].
  now rewrite orb_true_r.
Qed.

(** With every score 0, the first choice scanned stays the best. *)
Lemma extractOne_loop_all_zero (scorer : string -> string -> Q)
  (query : string) (choices : list string) :
  (forall c, scorer query c = 0%Q) ->
  forall key best,
    extractOne_loop scorer query (map VStr choices) key
      (Some (best, 0%Q, 0%nat))
    = Ok (Some (best, 0%Q, 0%nat)).
Proof.
  intro Hzero. induction choices as [|c rest IH]; intros key best;
    [reflexivity|].
  simpl. rewrite Hzero. simpl. apply IH.
Qed.

(** X4.  Under [token_set_ratio], a name without a token (empty, or made of
    whitespace) is not missing for [pd.isna] and is scored, but it scores 0
    against everything: as a query it resolves to null against every
    non-empty table of names, and as a canonical name its key is never
    returned, whatever the query. *)
Theorem blank_names_never_match :
  forall (interpolated : string -> string -> Q) (dim_df : DataFrame)
         (name_col id_col : string) (names : list string) (blank : string),
    split blank = [] ->
    getitem dim_df name_col = Ok (map VStr names) ->
    (names <> [] ->
     map_name_to_id (token_set_ratio interpolated) (VStr blank) dim_df
       name_col id_col = Ok VNull)
    /\ (forall name threshold,
           (0 < threshold)%Q ->
           fuzzy_match (token_set_ratio interpolated) name (map VStr names)
             threshold <> Ok (Some blank)).
Proof.
  intros interpolated dim_df name_col id_col names blank Hblank Hnames. split.
  - intro Hne. destruct names as [|c rest]; [congruence|].
    unfold map_name_to_id. cbn [isna]. rewrite Hnames. cbn [bind].
    unfold fuzzy_match, extractOne. cbn [map extractOne_loop].
    rewrite (token_set_ratio_blank_query interpolated blank c Hblank).
    cbn [Qeq_bool keep_best]. simpl.
    rewrite extractOne_loop_all_zero
      by (intro c'; now apply token_set_ratio_blank_query).
    reflexivity.
  - intros name threshold Hpos Hmatch. unfold fuzzy_match, extractOne in Hmatch.
    destruct name as [| |q|n|t]; try discriminate.
    destruct (extractOne_loop (token_set_ratio interpolated) q (map VStr names)
                0 None) as [[[[c s] k]|]|e] eqn:E; try discriminate.
    simpl in Hmatch. destruct (Qle_bool threshold s) eqn:Hle; [|discriminate].
    inversion Hmatch; subst c.
    destruct (extractOne_loop_from _ _ _ _ _ _ _ _ E) as [Hb|[_ Hs]];
      [discriminate|].
    rewrite (token_set_ratio_blank_choice interpolated q blank Hblank) in Hs.
    subst s. apply Qle_bool_iff in Hle.
    apply (Qlt_not_le _ _ Hpos Hle).
Qed.

Lemma blank_names_never_match_witness :
  map_name_to_id exact_scorer (VStr "  ")
    (mkDF 2 [("team_name_std", [VStr "FC Alpha"; VStr "  "]);
             ("team_id", [VInt 1; VInt 2])])
    "team_name_std" "team_id" = Ok VNull.
Proof.
  apply (proj1 (blank_names_never_match (fun _ _ => 0%Q)
                  (mkDF 2 [("team_name_std", [VStr "FC Alpha"; VStr "  "]);
                           ("team_id", [VInt 1; VInt 2])])
                  "team_name_std" "team_id" ["FC Alpha"; "  "] "  "
                  ltac:(reflexivity) ltac:(reflexivity))).
  discriminate.
Defined.

(** ** The order of a set *)

Lemma unique_reversed_set_list_spec : set_list_spec unique_reversed.
Proof.
  intro l. unfold unique_reversed. split.
  - apply NoDup_rev, unique_NoDup.
  - intro v. rewrite <- in_rev. apply unique_In.
Qed.

(** X5.  The order in which [list(set(...))] enumerates decides the keys and
    nothing else: under any two orders the canonical names of lines 63-65 and
    69-71 are the same names, as many, in a different order. *)
Theorem all_names_order_independent :
  forall (set_list1 set_list2 : list value -> list value)
         (gps outfield goalkeeper : list value),
    set_list_spec set_list1 ->
    set_list_spec set_list2 ->
    Permutation (all_names set_list1 gps outfield goalkeeper)
      (all_names set_list2 gps outfield goalkeeper)
    /\ List.length (all_names set_list1 gps outfield goalkeeper)
       = List.length (all_names set_list2 gps outfield goalkeeper).
Proof.
  intros set_list1 set_list2 gps outfield goalkeeper H1 H2.
  assert (Hperm : Permutation (all_names set_list1 gps outfield goalkeeper)
                    (all_names set_list2 gps outfield goalkeeper)).
  { unfold all_names. apply NoDup_Permutation.
    - apply H1.
    - apply H2.
    - intro v. destruct (H1 (unique (dropna gps)
        ++ unique (dropna (outfield ++ goalkeeper)))%list) as [_ Hin1].
      destruct (H2 (unique (dropna gps)
        ++ unique (dropna (outfield ++ goalkeeper)))%list) as [_ Hin2].
      rewrite Hin1, Hin2. reflexivity. }
  split; [exact Hperm|now apply Permutation_length].
Qed.

Lemma all_names_order_independent_witness :
  Permutation
    (all_names unique [VStr "FC Alpha"; VNull] [VStr "FC Beta"]
       [VStr "FC Alpha"])
    (all_names unique_reversed [VStr "FC Alpha"; VNull] [VStr "FC Beta"]
       [VStr "FC Alpha"])
  /\ all_names unique [VStr "FC Alpha"; VNull] [VStr "FC Beta"]
       [VStr "FC Alpha"] = [VStr "FC Alpha"; VStr "FC Beta"]
  /\ all_names unique_reversed [VStr "FC Alpha"; VNull] [VStr "FC Beta"]
       [VStr "FC Alpha"] = [VStr "FC Beta"; VStr "FC Alpha"].
Proof.
  split; [|split; reflexivity].
  apply (all_names_order_independent unique unique_reversed).
  - apply unique_set_list_spec.
  - apply unique_reversed_set_list_spec.
Defined.

(** ** The fact tables of a run *)

(** A column that both tables have is, in [pd.concat([a, b])], the column of
    [a] followed by the column of [b]. *)
Lemma getitem_concat_both (a b d : DataFrame) (c : string)
  (la lb : list value) :
  concat a b = Ok d ->
  getitem a c = Ok la -> getitem b c = Ok lb ->
  getitem d c = Ok (la ++ lb)%list.
Proof.
  intro Hc. rewrite (getitem_concat_reindexed _ _ _ c Hc).
  unfold getitem, reindexed, col_or_null. simpl.
  rewrite (lookup_col_map
             (fun c => (match lookup_col c (columns a) with
                        | Some l => l
                        | None => repeat VNull (index_len a)
                        end
                        ++ match lookup_col c (columns b) with
                           | Some l => l
                           | None => repeat VNull (index_len b)
                           end)%list)).
  rewrite mem_union_cols.
  destruct (lookup_col c (columns a)) as [la'|] eqn:Ea; [|discriminate].
  destruct (lookup_col c (columns b)) as [lb'|] eqn:Eb; [|discriminate].
  rewrite (lookup_col_mem _ _ _ Ea). simpl.
  intros Ha Hb. inversion Ha. inversion Hb. reflexivity.
Qed.

(** Reads a column through the writes made after it. *)
Ltac read_columns :=
  unfold setitem_scalar;
  repeat first
    [ rewrite getitem_with_col_same
    | rewrite getitem_with_col_other by discriminate ].

(** X6.  After every run that completes, [fact_player_gps] is a new table
    with the rows of [gps_match] followed by those of [gps_training]: every
    row carries the session type of the table it came from; a column that
    only one of the two tables has is filled with missing cells for the
    other; the dates are parsed once, over the concatenated column. *)
Theorem fact_player_gps_is_tagged_union :
  forall (scorer : string -> string -> Q)
         (to_datetime : list value -> list (option Z))
         (set_list : list value -> list value)
         (gm gt wo wg wm : DataFrame) (out : tables) (h : store),
    run_transform scorer to_datetime set_list gm gt wo wg wm = Ok (out, h) ->
    fact_player_gps out = 5%nat
    /\ index_len (nth (fact_player_gps out) h empty_frame)
       = (index_len gm + index_len gt)%nat
    /\ getitem (nth (fact_player_gps out) h empty_frame) "session_type"
       = Ok (repeat (VStr "match") (index_len gm)
             ++ repeat (VStr "training") (index_len gt))%list
    /\ getitem (nth (fact_player_gps out) h empty_frame) "date"
       = Ok (map time_cell
               (to_datetime
                  (col_or_null gm "date" ++ col_or_null gt "date")%list))
    /\ forall c l,
        c <> "session_type" -> c <> "date" -> c <> "team_id" ->
        c <> "player_id" ->
        getitem (nth (fact_player_gps out) h empty_frame) c = Ok l ->
        l = (col_or_null gm c ++ col_or_null gt c)%list.
Proof.
  intros scorer to_datetime set_list gm gt wo wg wm out h H.
  unfold run_transform, transform_data in H. run_step H.
  cbn [fact_player_gps nth].
  split; [reflexivity|]. split; [|split; [|split]].
  - cbn [index_len with_col]. now rewrite (proj1 (concat_Ok _ _ _ Hconcat)).
  - read_columns.
    apply (getitem_concat_both _ _ _ _ _ _ Hconcat);
      apply getitem_with_col_same.
  - read_columns.
    match goal with
    | Hd : getitem stacked "date" = Ok ?raw |- _ =>
        pose proof (getitem_concat _ _ _ _ _ Hd Hconcat); subst raw
    end.
    unfold setitem_scalar.
    now rewrite !col_or_null_with_col_other by discriminate.
  - intros c l Hc1 Hc2 Hc3 Hc4 Hl.
    rewrite !getitem_with_col_other in Hl by assumption.
    pose proof (getitem_concat _ _ _ _ _ Hl Hconcat). subst l.
    unfold setitem_scalar.
    now rewrite !col_or_null_with_col_other by assumption.
Qed.

Lemma fact_player_gps_is_tagged_union_witness :
  exists out h,
    sample_run = Ok (out, h)
    /\ getitem (nth (fact_player_gps out) h empty_frame) "session_type"
       = Ok (repeat (VStr "match") (index_len sample_gps_match)
             ++ repeat (VStr "training") (index_len sample_gps_training))%list.
Proof.
  eexists. eexists. split; [vm_compute; reflexivity|].
  apply (fact_player_gps_is_tagged_union exact_scorer to_datetime_iso unique
           sample_gps_match sample_gps_training sample_wyscout_outfield
           sample_wyscout_goalkeeper sample_wyscout_matches).
  vm_compute. reflexivity.
Defined.

(** X7.  After every run that completes, [fact_player_wyscout] is a new
    table, the final goalkeeper table followed by the final outfield table:
    goalkeepers first, every row carrying the player type of the table it
    came from, with the keys and parsed dates written before. *)
Theorem fact_player_wyscout_is_tagged_union :
  forall (scorer : string -> string -> Q)
         (to_datetime : list value -> list (option Z))
         (set_list : list value -> list value)
         (gm gt wo wg wm : DataFrame) (out : tables) (h : store),
    run_transform scorer to_datetime set_list gm gt wo wg wm = Ok (out, h) ->
    fact_player_wyscout out = 11%nat
    /\ concat (nth 3 h empty_frame) (nth 2 h empty_frame)
       = Ok (nth (fact_player_wyscout out) h empty_frame)
    /\ index_len (nth (fact_player_wyscout out) h empty_frame)
       = (index_len wg + index_len wo)%nat
    /\ getitem (nth (fact_player_wyscout out) h empty_frame) "player_type"
       = Ok (repeat (VStr "goalkeeper") (index_len wg)
             ++ repeat (VStr "outfield") (index_len wo))%list
    /\ forall c l,
        c <> "date" -> c <> "team_id" -> c <> "player_id" ->
        c <> "player_type" ->
        getitem (nth (fact_player_wyscout out) h empty_frame) c = Ok l ->
        l = (col_or_null wg c ++ col_or_null wo c)%list.
Proof.
  intros scorer to_datetime set_list gm gt wo wg wm out h H.
  unfold run_transform, transform_data in H. run_step H.
  cbn [fact_player_wyscout nth].
  split; [reflexivity|]. split; [exact Hconcat0|]. split; [|split].
  - now rewrite (proj1 (concat_Ok _ _ _ Hconcat0)).
  - apply (getitem_concat_both _ _ _ _ _ _ Hconcat0);
      apply getitem_with_col_same.
  - intros c l Hc1 Hc2 Hc3 Hc4 Hl.
    pose proof (getitem_concat _ _ _ _ _ Hl Hconcat0). subst l.
    unfold setitem_scalar.
    now rewrite !col_or_null_with_col_other by assumption.
Qed.

Lemma fact_player_wyscout_is_tagged_union_witness :
  exists out h,
    sample_run = Ok (out, h)
    /\ getitem (nth (fact_player_wyscout out) h empty_frame) "player_type"
       = Ok (repeat (VStr "goalkeeper") (index_len sample_wyscout_goalkeeper)
             ++ repeat (VStr "outfield")
                  (index_len sample_wyscout_outfield))%list.
Proof.
  eexists. eexists. split; [vm_compute; reflexivity|].
  apply (fact_player_wyscout_is_tagged_union exact_scorer to_datetime_iso
           unique sample_gps_match sample_gps_training
           sample_wyscout_outfield sample_wyscout_goalkeeper
           sample_wyscout_matches).
  vm_compute. reflexivity.
Defined.

(** ** Keys, row by row *)

Lemma apply_Forall2 (f : value -> result value) (l ws : list value) :
  apply f l = Ok ws -> Forall2 (fun v w => f v = Ok w) l ws.
Proof.
  revert ws. induction l as [|x l IH]; intros ws H; simpl in H.
  - inversion H. constructor.
  - destruct (f x) as [w|e] eqn:Ex; [|discriminate]. cbn [bind] in H.
    destruct (apply f l) as [ws'|e] eqn:El; [|discriminate]. cbn [bind] in H.
    inversion H. constructor; [exact Ex|now apply IH].
Qed.

(** X8.  After every run that completes, every key column holds, row by row,
    the resolution of the name of the same row against the canonical table
    as the run returns it: no row's key depends on another row, and a row
    whose name is missing has a null key.  The player fact table has the
    keys of its goalkeeper rows, then of its outfield rows. *)
Theorem keys_resolved_row_by_row :
  forall (scorer : string -> string -> Q)
         (to_datetime : list value -> list (option Z))
         (set_list : list value -> list value)
         (gm gt wo wg wm : DataFrame) (out : tables) (h : store),
    run_transform scorer to_datetime set_list gm gt wo wg wm = Ok (out, h) ->
    resolved_column scorer (nth (fact_player_gps out) h empty_frame)
      (nth (dim_team out) h empty_frame)
      "team_name" "team_name_std" "team_id" "team_id"
    /\ resolved_column scorer (nth (fact_player_gps out) h empty_frame)
         (nth (dim_player out) h empty_frame)
         "name" "player_name_std" "player_id" "player_id"
    /\ resolved_column scorer (nth (fact_wyscout_match out) h empty_frame)
         (nth (dim_team out) h empty_frame)
         "team_name" "team_name_std" "team_id" "team_id"
    /\ resolved_column scorer (nth (fact_wyscout_match out) h empty_frame)
         (nth (dim_competition out) h empty_frame)
         "competition" "competition" "competition_id" "competition_id"
    /\ resolved_column scorer (nth (fact_player_wyscout out) h empty_frame)
         (nth (dim_team out) h empty_frame)
         "team_name" "team_name_std" "team_id" "team_id"
    /\ resolved_column scorer (nth (fact_player_wyscout out) h empty_frame)
         (nth (dim_player out) h empty_frame)
         "player" "player_name_std" "player_id" "player_id"
    /\ forall name dim_df name_col id_col,
        isna name = true ->
        map_name_to_id scorer name dim_df name_col id_col = Ok VNull.
Proof.
  intros scorer to_datetime set_list gm gt wo wg wm out h H.
  unfold run_transform, transform_data in H. run_step H.
  cbn [fact_player_gps fact_wyscout_match fact_player_wyscout dim_team
       dim_player dim_competition nth].
  repeat match goal with
  | Hi : apply _ _ = Ok _ |- _ => apply apply_Forall2 in Hi
  end.
  repeat match goal with
  | Hg : getitem (with_col _ _ _) _ = Ok _ |- _ =>
      progress (repeat rewrite getitem_with_col_other in Hg by discriminate)
  end.
  assert (Hcat : forall c l1 l2,
            c <> "player_type" -> c <> "player_id" -> c <> "team_id" ->
            c <> "date" ->
            getitem wg c = Ok l1 -> getitem wo c = Ok l2 ->
            getitem stacked0 c = Ok (l1 ++ l2)%list).
  { intros c l1 l2 H1 H2 H3 H4 Hg Ho.
    apply (getitem_concat_both _ _ _ _ _ _ Hconcat0); unfold setitem_scalar;
      now rewrite !getitem_with_col_other by assumption. }
  repeat split.
  - eexists. eexists. split; [|split];
      [read_columns; eassumption|read_columns; reflexivity|assumption].
  - eexists. eexists. split; [|split];
      [read_columns; eassumption|read_columns; reflexivity|assumption].
  - eexists. eexists. split; [|split];
      [read_columns; eassumption|read_columns; reflexivity|assumption].
  - eexists. eexists. split; [|split];
      [read_columns; eassumption|read_columns; reflexivity|assumption].
  - eexists. eexists. split; [|split].
    + apply Hcat; try discriminate; eassumption.
    + eapply (getitem_concat_both _ _ _ _ _ _ Hconcat0); read_columns;
        reflexivity.
    + apply Forall2_app; assumption.
  - eexists. eexists. split; [|split].
    + apply Hcat; try discriminate; eassumption.
    + eapply (getitem_concat_both _ _ _ _ _ _ Hconcat0); read_columns;
        reflexivity.
    + apply Forall2_app; assumption.
  - intros name dim_df name_col id_col Hna. unfold map_name_to_id.
    now rewrite Hna.
Qed.

Lemma keys_resolved_row_by_row_witness :
  exists out h,
    sample_run = Ok (out, h)
    /\ resolved_column exact_scorer (nth (fact_player_gps out) h empty_frame)
         (nth (dim_team out) h empty_frame)
         "team_name" "team_name_std" "team_id" "team_id".
Proof.
  eexists. eexists. split; [vm_compute; reflexivity|].
  apply (keys_resolved_row_by_row exact_scorer to_datetime_iso unique
           sample_gps_match sample_gps_training sample_wyscout_outfield
           sample_wyscout_goalkeeper sample_wyscout_matches).
  vm_compute. reflexivity.
Defined.

Lemma map_name_to_id_key_in (scorer : string -> string -> Q) (name : value)
  (dim_df : DataFrame) (name_col id_col : string) (k : value) :
  map_name_to_id scorer name dim_df name_col id_col = Ok k ->
  k = VNull \/ exists ids, getitem dim_df id_col = Ok ids /\ In k ids.
Proof.
  unfold map_name_to_id.
  destruct (isna name); [intro H; inversion H; now left|].
  destruct (getitem dim_df name_col) as [names|e]; [|discriminate].
  cbn [bind].
  destruct (fuzzy_match scorer name names default_threshold) as [[m|]|e];
    try discriminate; cbn [bind]; [|intro H; inversion H; now left].
  destruct (truthy m); [|intro H; inversion H; now left].
  destruct (getitem dim_df id_col) as [ids|e]; [|discriminate]. cbn [bind].
  destruct (loc_eq names ids (VStr m)) as [|k' rest] eqn:El; [discriminate|].
  intro H. inversion H; subst k'. right. exists ids. split; [reflexivity|].
  destruct (loc_eq_head _ _ _ _ _ El) as (i & _ & Hi & _).
  eapply nth_error_In; eauto.
Qed.

(** The keys that resolutions against a canonical table return. *)
Lemma resolved_keys_within (scorer : string -> string -> Q)
  (name_col id_col : string) (canonical : list value) (dim : DataFrame)
  (names ids : list value) :
  name_col <> id_col ->
  dimension_table name_col id_col canonical = Ok dim ->
  Forall2 (fun n k => map_name_to_id scorer n dim name_col id_col = Ok k)
    names ids ->
  forall v, In v ids ->
            v = VNull
            \/ exists k, v = VInt k /\ 1 <= k <= Z.of_nat (index_len dim).
Proof.
  intros Hne Hdim Hall v Hin.
  destruct (dimension_table_columns _ _ _ _ Hne Hdim) as (Hlen & _ & Hids).
  induction Hall as [|n k names ids Hk Hall IH]; [destruct Hin|].
  destruct Hin as [->|Hin]; [|now apply IH].
  destruct (map_name_to_id_key_in _ _ _ _ _ _ Hk) as [->|(l & Hl & Hv)];
    [now left|].
  rewrite Hids in Hl. inversion Hl; subst l. right.
  apply in_map_iff in Hv. destruct Hv as (z & <- & Hz).
  exists z. split; [reflexivity|].
  unfold py_range in Hz. apply in_map_iff in Hz.
  destruct Hz as (i & <- & Hi). apply in_seq in Hi. rewrite Hlen. lia.
Qed.

Lemma select_four (df sel : DataFrame) (c1 c2 c3 c4 : string) :
  select df [c1; c2; c3; c4] = Ok sel ->
  exists l1 l2 l3 l4,
    getitem df c1 = Ok l1 /\ getitem df c2 = Ok l2
    /\ getitem df c3 = Ok l3 /\ getitem df c4 = Ok l4
    /\ sel = mkDF (index_len df) [(c1, l1); (c2, l2); (c3, l3); (c4, l4)].
Proof.
  unfold select. cbn [select_cols].
  destruct (getitem df c1) as [l1|e]; [|discriminate]. cbn [bind].
  destruct (getitem df c2) as [l2|e]; [|discriminate]. cbn [bind].
  destruct (getitem df c3) as [l3|e]; [|discriminate]. cbn [bind].
  destruct (getitem df c4) as [l4|e]; [|discriminate]. cbn [bind].
  intro H. inversion H. now exists l1, l2, l3, l4.
Qed.

Lemma nth_null_or_In (i : nat) (l : list value) :
  nth i l VNull = VNull \/ In (nth i l VNull) l.
Proof.
  destruct (nth_in_or_default i l VNull); [now right|now left].
Qed.

(** X9.  After every run that completes, every key cell of the fact tables
    and of the match table is null or one of the keys 1, ..., N of the
    canonical table it refers to: no key points outside its table. *)
Theorem keys_point_into_canonical_tables :
  forall (scorer : string -> string -> Q)
         (to_datetime : list value -> list (option Z))
         (set_list : list value -> list value)
         (gm gt wo wg wm : DataFrame) (out : tables) (h : store),
    run_transform scorer to_datetime set_list gm gt wo wg wm = Ok (out, h) ->
    keys_within (nth (fact_player_gps out) h empty_frame)
      (nth (dim_team out) h empty_frame) "team_id"
    /\ keys_within (nth (fact_player_gps out) h empty_frame)
         (nth (dim_player out) h empty_frame) "player_id"
    /\ keys_within (nth (fact_wyscout_match out) h empty_frame)
         (nth (dim_team out) h empty_frame) "team_id"
    /\ keys_within (nth (fact_wyscout_match out) h empty_frame)
         (nth (dim_competition out) h empty_frame) "competition_id"
    /\ keys_within (nth (fact_player_wyscout out) h empty_frame)
         (nth (dim_team out) h empty_frame) "team_id"
    /\ keys_within (nth (fact_player_wyscout out) h empty_frame)
         (nth (dim_player out) h empty_frame) "player_id"
    /\ keys_within (nth (dim_match out) h empty_frame)
         (nth (dim_team out) h empty_frame) "team_id"
    /\ keys_within (nth (dim_match out) h empty_frame)
         (nth (dim_competition out) h empty_frame) "competition_id".
Proof.
  intros scorer to_datetime set_list gm gt wo wg wm out h H.
  unfold run_transform, transform_data in H. run_step H.
  cbn [fact_player_gps fact_wyscout_match fact_player_wyscout dim_match
       dim_team dim_player dim_competition nth].
  repeat match goal with
  | Hi : apply _ _ = Ok _ |- _ => apply apply_Forall2 in Hi
  end.
  repeat match goal with
  | Hd : dimension_table ?n ?i ?c = Ok ?d, Hf : Forall2 _ ?names ?ids |- _ =>
      let Hk := fresh "Hkeys" in
      pose proof (resolved_keys_within scorer n i c d names ids
                    ltac:(discriminate) Hd Hf) as Hk;
      clear Hf
  end.
  match goal with
  | Hsel : select _ _ = Ok _ |- _ =>
      apply select_four in Hsel;
      destruct Hsel as (l1 & l2 & l3 & l4 & _ & _ & Hl3 & Hl4 & ->)
  end.
  rewrite getitem_with_col_same in Hl4.
  rewrite getitem_with_col_other, getitem_with_col_same in Hl3
    by discriminate.
  inversion Hl3; subst l3. inversion Hl4; subst l4.
  repeat split.
  - eexists. split; [read_columns; reflexivity|assumption].
  - eexists. split; [read_columns; reflexivity|assumption].
  - eexists. split; [read_columns; reflexivity|assumption].
  - eexists. split; [read_columns; reflexivity|assumption].
  - eexists.
    split; [eapply (getitem_concat_both _ _ _ _ _ _ Hconcat0); read_columns;
            reflexivity|].
    intros v Hv. apply in_app_or in Hv. destruct Hv; auto.
  - eexists.
    split; [eapply (getitem_concat_both _ _ _ _ _ _ Hconcat0); read_columns;
            reflexivity|].
    intros v Hv. apply in_app_or in Hv. destruct Hv; auto.
  - eexists. split; [reflexivity|]. intros v Hv.
    apply in_map_iff in Hv. destruct Hv as (i & Hi & _). subst v.
    cbn [snd]. destruct (nth_null_or_In i ids5) as [E|Hin]; auto.
  - eexists. split; [reflexivity|]. intros v Hv.
    apply in_map_iff in Hv. destruct Hv as (i & Hi & _). subst v.
    cbn [snd]. destruct (nth_null_or_In i ids6) as [E|Hin]; auto.
Qed.

Lemma keys_point_into_canonical_tables_witness :
  exists out h,
    sample_run = Ok (out, h)
    /\ keys_within (nth (fact_player_gps out) h empty_frame)
         (nth (dim_team out) h empty_frame) "team_id"
    /\ keys_within (nth (dim_match out) h empty_frame)
         (nth (dim_competition out) h empty_frame) "competition_id".
Proof.
  eexists. eexists. split; [vm_compute; reflexivity|].
  pose proof (keys_point_into_canonical_tables exact_scorer to_datetime_iso
                unique sample_gps_match sample_gps_training
                sample_wyscout_outfield sample_wyscout_goalkeeper
                sample_wyscout_matches _ _ ltac:(vm_compute; reflexivity))
    as H.
  split; [exact (proj1 H)|].
  exact (proj2 (proj2 (proj2 (proj2 (proj2 (proj2 (proj2 H))))))).
Defined.

(** ** The rows of the date table *)

(** The day number of the civil date of a day number is that day number. *)
Lemma days_of_civil_of_days (n : Z) :
  days_of_civil (fst (fst (civil_of_days n))) (snd (fst (civil_of_days n)))
    (snd (civil_of_days n)) = n.
Proof.
  unfold civil_of_days, days_of_civil. cbn [fst snd].
  set (z := n + 719468).
  set (era := z / 146097).
  set (doe := z - era * 146097).
  assert (Hdoe : 0 <= doe < 146097).
  { subst doe era. pose proof (Z.mod_pos_bound z 146097 ltac:(lia)) as Hm.
    rewrite Z.mod_eq in Hm by lia. lia. }
  set (yoe := (doe - doe / 1460 + doe / 36524 - doe / 146096) / 365).
  set (doy := doe - (365 * yoe + yoe / 4 - yoe / 100)).
  assert (Hy : 0 <= yoe <= 399 /\ 0 <= doy <= 365).
  { subst doy yoe. clearbody doe. clear - Hdoe. Z.div_mod_to_equations. lia. }
  set (mp := (5 * doy + 2) / 153).
  assert (Hmp : 0 <= mp <= 11) by (subst mp; Z.div_mod_to_equations; lia).
  assert (Hd : (153 * mp + 2) / 5 <= doy < (153 * (mp + 1) + 2) / 5).
  { subst mp. clearbody doy. Z.div_mod_to_equations. lia. }
  destruct (Z.ltb_spec mp 10).
  - destruct (Z.leb_spec (mp + 3) 2); [lia|].
    replace (mp + 3 - 3) with mp by lia.
    replace ((yoe + era * 400) / 400) with era by (Z.div_mod_to_equations; lia).
    replace (yoe + era * 400 - era * 400) with yoe by lia.
    subst doy. lia.
  - destruct (Z.leb_spec (mp - 9) 2); [|lia].
    replace (mp - 9 + 9) with mp by lia.
    replace (yoe + era * 400 + 1 - 1) with (yoe + era * 400) by lia.
    replace ((yoe + era * 400) / 400) with era by (Z.div_mod_to_equations; lia).
    replace (yoe + era * 400 - era * 400) with yoe by lia.
    subst doy. lia.
Qed.

(** Two timestamps with the same date key are on the same calendar day. *)
Lemma yyyymmdd_same_day (t u : Z) :
  yyyymmdd t = yyyymmdd u -> days_of t = days_of u.
Proof.
  intro H.
  destruct (yyyymmdd_digits t) as (Hy & Hm & Hd).
  destruct (yyyymmdd_digits u) as (Hy' & Hm' & Hd').
  rewrite H in Hy, Hm, Hd.
  rewrite <- (days_of_civil_of_days (days_of t)).
  rewrite <- (days_of_civil_of_days (days_of u)).
  unfold year, month, day in *. congruence.
Qed.

Lemma daily_keys_NoDup (lo : Z) (n : nat) :
  NoDup (map (fun t => VInt (yyyymmdd t)) (daily lo n)).
Proof.
  unfold daily. rewrite map_map.
  apply Injective_map_NoDup_in; [|apply seq_NoDup].
  intros j k _ _ Heq. injection Heq as Heq.
  apply yyyymmdd_same_day in Heq. rewrite !days_of_daily in Heq. lia.
Qed.

Lemma quarter_range (t : Z) : 1 <= quarter t <= 4.
Proof.
  unfold quarter, month.
  destruct (civil_of_days_month_day (days_of t)) as [Hm _].
  Z.div_mod_to_equations. lia.
Qed.

Lemma weeks_in_year_range (y : Z) : 52 <= weeks_in_year y <= 53.
Proof.
  unfold weeks_in_year.
  match goal with |- context [if ?b then _ else _] => destruct b end; lia.
Qed.

Lemma isoweek_range (t : Z) : 1 <= isoweek t <= 53.
Proof.
  unfold isoweek.
  pose proof (weeks_in_year_range (year t)).
  pose proof (weeks_in_year_range (year t - 1)).
  repeat match goal with
  | |- context [if ?a <? ?b then _ else _] => destruct (Z.ltb_spec a b)
  end; lia.
Qed.

(** X10.  After every run that completes, the rows of the date table are
    well formed: no two rows have the same date key, so the key identifies
    the day; months lie in 1..12, days in 1..31, quarters in 1..4 and ISO
    weeks in 1..53. *)
Theorem date_dimension_rows_wellformed :
  forall (scorer : string -> string -> Q)
         (to_datetime : list value -> list (option Z))
         (set_list : list value -> list value)
         (gm gt wo wg wm : DataFrame) (out : tables) (h : store),
    run_transform scorer to_datetime set_list gm gt wo wg wm = Ok (out, h) ->
    (exists keys,
        getitem (nth (dim_date out) h empty_frame) "date_key" = Ok keys
        /\ NoDup keys
        /\ List.length keys = index_len (nth (dim_date out) h empty_frame))
    /\ column_within (nth (dim_date out) h empty_frame) "month" 1 12
    /\ column_within (nth (dim_date out) h empty_frame) "day" 1 31
    /\ column_within (nth (dim_date out) h empty_frame) "quarter" 1 4
    /\ column_within (nth (dim_date out) h empty_frame) "week" 1 53.
Proof.
  intros scorer to_datetime set_list gm gt wo wg wm out h H.
  unfold run_transform, transform_data in H. run_step H.
  cbn [dim_date nth].
  match goal with
  | Hr : date_range _ _ = Ok ?r |- _ =>
      apply date_range_Ok in Hr;
      destruct Hr as (lo & hi & _ & _ & _ & ->)
  end.
  split; [|repeat split].
  - eexists. split; [reflexivity|]. split; [apply daily_keys_NoDup|].
    cbn [dim_date_frame index_len]. now rewrite length_map.
  - eexists. split; [reflexivity|]. intros v Hv.
    apply in_map_iff in Hv. destruct Hv as (t & <- & _).
    exists (month t). split; [reflexivity|].
    apply (civil_of_days_month_day (days_of t)).
  - eexists. split; [reflexivity|]. intros v Hv.
    apply in_map_iff in Hv. destruct Hv as (t & <- & _).
    exists (day t). split; [reflexivity|].
    apply (civil_of_days_month_day (days_of t)).
  - eexists. split; [reflexivity|]. intros v Hv.
    apply in_map_iff in Hv. destruct Hv as (t & <- & _).
    exists (quarter t). split; [reflexivity|apply quarter_range].
  - eexists. split; [reflexivity|]. intros v Hv.
    apply in_map_iff in Hv. destruct Hv as (t & <- & _).
    exists (isoweek t). split; [reflexivity|apply isoweek_range].
Qed.

Lemma date_dimension_rows_wellformed_witness :
  exists out h,
    sample_run = Ok (out, h)
    /\ (exists keys,
           getitem (nth (dim_date out) h empty_frame) "date_key" = Ok keys
           /\ NoDup keys
           /\ List.length keys = index_len (nth (dim_date out) h empty_frame))
    /\ column_within (nth (dim_date out) h empty_frame) "month" 1 12.
Proof.
  eexists. eexists. split; [vm_compute; reflexivity|].
  pose proof (date_dimension_rows_wellformed exact_scorer to_datetime_iso
                unique sample_gps_match sample_gps_training
                sample_wyscout_outfield sample_wyscout_goalkeeper
                sample_wyscout_matches _ _ ltac:(vm_compute; reflexivity))
    as H.
  split; [exact (proj1 H)|exact (proj1 (proj2 H))].
Defined.

(** ** The match table *)

Lemma first_rows_spec (f : nat -> list value) (idx : list nat) :
  forall seen,
    NoDup (map f (first_rows seen (map (fun i => (i, f i)) idx)))
    /\ forall j, In j (first_rows seen (map (fun i => (i, f i)) idx)) ->
                 In j idx /\ ~ In (f j) seen.
Proof.
  induction idx as [|i idx IH]; intro seen; simpl.
  - split; [constructor|]. intros j [].
  - destruct (existsb (row_eqb (f i)) seen) eqn:E.
    + destruct (IH seen) as [Hnd Hin]. split; [exact Hnd|].
      intros j Hj. destruct (Hin j Hj). auto.
    + assert (Hnot : ~ In (f i) seen).
      { intro Hi. assert (existsb (row_eqb (f i)) seen = true); [|congruence].
        apply existsb_exists. exists (f i). split; [exact Hi|].
        now apply row_eqb_true. }
      destruct (IH (f i :: seen)) as [Hnd Hin]. split.
      * simpl. constructor; [|exact Hnd].
        intro Hmem. apply in_map_iff in Hmem.
        destruct Hmem as (j & Hfj & Hj).
        destruct (Hin j Hj) as [_ Hnj]. apply Hnj. left. now symmetry.
      * intros j [<-|Hj]; [auto|].
        destruct (Hin j Hj) as [Hji Hnj]. split; [now right|].
        intro Hs. apply Hnj. now right.
Qed.

Lemma map_nth_seq {A : Type} (l : list A) (d : A) :
  map (fun j => nth j l d) (seq 0 (List.length l)) = l.
Proof.
  induction l as [|a l IH]; [reflexivity|].
  simpl. f_equal. rewrite <- seq_shift, map_map. exact IH.
Qed.

(** The rows of [df.drop_duplicates()] are the rows kept, as they were. *)
Lemma rows_of_drop_duplicates (df : DataFrame) :
  rows_of (drop_duplicates df)
  = map (row (columns df))
      (first_rows []
         (map (fun i => (i, row (columns df) i)) (seq 0 (index_len df)))).
Proof.
  unfold rows_of, drop_duplicates. cbn [index_len columns].
  set (keep := first_rows [] _).
  transitivity (map (fun j => row (columns df) (nth j keep 0%nat))
                  (seq 0 (List.length keep))).
  - apply map_ext_in. intros j Hj. apply in_seq in Hj.
    unfold row. rewrite map_map. apply map_ext. intros [c l]. cbn [snd].
    rewrite (nth_indep _ VNull ((fun i => nth i l VNull) 0%nat))
      by (rewrite length_map; lia).
    now rewrite (map_nth (fun i => nth i l VNull)).
  - rewrite <- (map_map (fun j => nth j keep 0%nat) (row (columns df))).
    now rewrite map_nth_seq.
Qed.

(** [drop_duplicates] in two facts: no row is left twice, and the rows left
    are the rows there were. *)
Lemma drop_duplicates_rows (df : DataFrame) :
  NoDup (rows_of (drop_duplicates df))
  /\ forall r, In r (rows_of (drop_duplicates df)) <-> In r (rows_of df).
Proof.
  rewrite rows_of_drop_duplicates.
  destruct (first_rows_spec (row (columns df)) (seq 0 (index_len df)) [])
    as [Hnd Hin].
  split; [exact Hnd|]. intro r. unfold rows_of. split.
  - intro Hr. apply in_map_iff in Hr. destruct Hr as (j & <- & Hj).
    apply in_map. now apply Hin.
  - intro Hr. apply in_map_iff in Hr. destruct Hr as (i & <- & Hi).
    destruct (first_rows_covers
                (map (fun i => (i, row (columns df) i)) (seq 0 (index_len df)))
                [] i (row (columns df) i)) as [[]|(j & Hj & Hjr)].
    + apply in_map_iff. now exists i.
    + apply in_map_iff in Hjr. destruct Hjr as (j' & Heq & _).
      injection Heq as <- Hrow. rewrite <- Hrow. now apply in_map.
Qed.

Lemma strftime_int_Forall2 (l keys : list value) :
  strftime_int l = Ok keys ->
  Forall2 (fun d k => exists t, d = VTime t /\ k = VInt (yyyymmdd t)) l keys.
Proof.
  revert keys. induction l as [|v l IH]; intros keys H; simpl in H.
  - inversion H. constructor.
  - destruct v as [| |s|n|t]; try discriminate.
    + destruct (strftime_int l); discriminate.
    + destruct (strftime_int l) as [ks|e]; [|discriminate].
      cbn [bind] in H. inversion H. constructor; [now exists t|now apply IH].
Qed.

(** X11.  After every run that completes, the match table has the columns
    [match_id], [date], [team_id], [competition_id] and [date_key]; its rows
    are the distinct combinations of match, date, team key and competition
    key of the match fact table, each exactly once; every date is a
    timestamp and every date key is that date written YYYYMMDD. *)
Theorem dim_match_distinct_rows :
  forall (scorer : string -> string -> Q)
         (to_datetime : list value -> list (option Z))
         (set_list : list value -> list value)
         (gm gt wo wg wm : DataFrame) (out : tables) (h : store),
    run_transform scorer to_datetime set_list gm gt wo wg wm = Ok (out, h) ->
    exists selected keys dates,
      select (nth (fact_wyscout_match out) h empty_frame)
        ["match"; "date"; "team_id"; "competition_id"] = Ok selected
      /\ nth (dim_match out) h empty_frame
         = with_col (rename (drop_duplicates selected) "match" "match_id")
             "date_key" keys
      /\ map fst (columns (nth (dim_match out) h empty_frame))
         = ["match_id"; "date"; "team_id"; "competition_id"; "date_key"]
      /\ NoDup (rows_of (drop_duplicates selected))
      /\ (forall r, In r (rows_of (drop_duplicates selected))
                    <-> In r (rows_of selected))
      /\ getitem (nth (dim_match out) h empty_frame) "date" = Ok dates
      /\ Forall2 (fun d k => exists t, d = VTime t /\ k = VInt (yyyymmdd t))
           dates keys.
Proof.
  intros scorer to_datetime set_list gm gt wo wg wm out h H.
  unfold run_transform, transform_data in H. run_step H.
  cbn [fact_wyscout_match dim_match nth].
  match goal with
  | Hsel : select _ _ = Ok ?sel, Hk : strftime_int ?md = Ok ?keys,
    Hmd : getitem (rename (drop_duplicates ?sel) _ _) "date" = Ok ?md |- _ =>
      exists sel, keys, md;
      split; [exact Hsel|]; split; [reflexivity|];
      destruct (drop_duplicates_rows sel) as [Hnd Hrows];
      apply select_four in Hsel;
      destruct Hsel as (l1 & l2 & l3 & l4 & _ & _ & _ & _ & ->);
      split; [reflexivity|]; split; [exact Hnd|]; split; [exact Hrows|];
      split; [|now apply strftime_int_Forall2];
      rewrite getitem_with_col_other by discriminate; exact Hmd
  end.
Qed.

Lemma dim_match_distinct_rows_witness :
  exists out h,
    sample_run = Ok (out, h)
    /\ rows_of (nth (dim_match out) h empty_frame)
       = [[VStr "m1"; VTime 1704153600000000000; VInt 1; VInt 1;
           VInt 20240102]]
    /\ exists selected keys dates,
        select (nth (fact_wyscout_match out) h empty_frame)
          ["match"; "date"; "team_id"; "competition_id"] = Ok selected
        /\ nth (dim_match out) h empty_frame
           = with_col (rename (drop_duplicates selected) "match" "match_id")
               "date_key" keys
        /\ map fst (columns (nth (dim_match out) h empty_frame))
           = ["match_id"; "date"; "team_id"; "competition_id"; "date_key"]
        /\ NoDup (rows_of (drop_duplicates selected))
        /\ (forall r, In r (rows_of (drop_duplicates selected))
                      <-> In r (rows_of selected))
        /\ getitem (nth (dim_match out) h empty_frame) "date" = Ok dates
        /\ Forall2 (fun d k => exists t, d = VTime t /\ k = VInt (yyyymmdd t))
             dates keys.
Proof.
  eexists. eexists. split; [vm_compute; reflexivity|].
  split; [reflexivity|].
  apply (dim_match_distinct_rows exact_scorer to_datetime_iso unique
           sample_gps_match sample_gps_training sample_wyscout_outfield
           sample_wyscout_goalkeeper sample_wyscout_matches).
  vm_compute. reflexivity.
Defined.

(** ** Joining the match table to the date table *)

Lemma yyyymmdd_of_day (t u : Z) :
  days_of t = days_of u -> yyyymmdd t = yyyymmdd u.
Proof.
  intro H. unfold yyyymmdd, year, month, day. now rewrite H.
Qed.

(** From a midnight on, the calendar has a row for the day of every
    timestamp of the range. *)
Lemma calendar_covers (lo hi t : Z) :
  midnight lo -> lo <= t <= hi ->
  In (VInt (yyyymmdd t))
    (map (fun t => VInt (yyyymmdd t))
       (daily lo (Z.to_nat ((hi - lo) / day_ns + 1)))).
Proof.
  intros Hmid Ht. unfold midnight in Hmid.
  rewrite (midnight_span lo hi Hmid).
  assert (Hlo : days_of lo <= days_of t)
    by (unfold days_of; apply Z.div_le_mono; [reflexivity|lia]).
  assert (Hhi : days_of t <= days_of hi)
    by (unfold days_of; apply Z.div_le_mono; [reflexivity|lia]).
  apply in_map_iff.
  exists (lo + Z.of_nat (Z.to_nat (days_of t - days_of lo)) * day_ns). split.
  - f_equal. apply yyyymmdd_of_day. rewrite days_of_daily. lia.
  - unfold daily. apply in_map_iff.
    exists (Z.to_nat (days_of t - days_of lo)). split; [reflexivity|].
    apply in_seq. lia.
Qed.

Lemma col_or_null_with_col_same (df : DataFrame) (c : string)
  (l : list value) :
  col_or_null (with_col df c l) c = l.
Proof.
  unfold col_or_null, with_col. simpl. now rewrite lookup_col_replace_same.
Qed.

Lemma Forall2_In_r {A B : Type} (P : A -> B -> Prop) (l : list A)
  (l' : list B) (b : B) :
  Forall2 P l l' -> In b l' -> exists a, In a l /\ P a b.
Proof.
  induction 1 as [|x y l l' Hxy Hall IH]; intro Hin; [destruct Hin|].
  destruct Hin as [<-|Hin].
  - exists x. split; [now left|exact Hxy].
  - destruct (IH Hin) as (a & Ha & Hp). exists a. split; [now right|exact Hp].
Qed.

(** X12.  After every run that completes, when the earliest date of the GPS
    and match tables is a midnight (as it is when the dates carry no time of
    day), every date key of the match table is a date key of the date table:
    the join on [date_key] loses no match row.  (With a time of day on the
    earliest date, the last calendar day can be missing from the date
    table.) *)
Theorem match_date_keys_in_date_dimension :
  forall (scorer : string -> string -> Q)
         (to_datetime : list value -> list (option Z))
         (set_list : list value -> list value)
         (gm gt wo wg wm : DataFrame) (out : tables) (h : store),
    run_transform scorer to_datetime set_list gm gt wo wg wm = Ok (out, h) ->
    (forall lo,
        earliest lo
          (col_or_null (nth (fact_player_gps out) h empty_frame) "date"
           ++ col_or_null (nth (fact_wyscout_match out) h empty_frame) "date")
        -> midnight lo) ->
    exists keys calendar,
      getitem (nth (dim_match out) h empty_frame) "date_key" = Ok keys
      /\ getitem (nth (dim_date out) h empty_frame) "date_key" = Ok calendar
      /\ forall k, In k keys -> In k calendar.
Proof.
  intros scorer to_datetime set_list gm gt wo wg wm out h H.
  unfold run_transform, transform_data in H. run_step H.
  cbn [fact_player_gps fact_wyscout_match dim_match dim_date nth].
  repeat first
    [ rewrite col_or_null_with_col_same
    | rewrite col_or_null_with_col_other by discriminate ].
  intro Hmid.
  repeat match goal with
  | Hg : getitem (with_col _ "date" _) "date" = Ok ?l |- _ =>
      rewrite getitem_with_col_same in Hg; inversion Hg; subst l; clear Hg
  end.
  match goal with
  | Hr : date_range _ _ = Ok ?r |- _ =>
      apply date_range_Ok in Hr;
      destruct Hr as (lo & hi & Hlo & Hhi & _ & ->)
  end.
  specialize (Hmid lo Hlo).
  match goal with
  | Hsel : select _ _ = Ok ?sel, Hk : strftime_int ?md = Ok ?keys,
    Hmd : getitem (rename (drop_duplicates ?sel) _ _) "date" = Ok ?md |- _ =>
      exists keys; eexists;
      split; [apply getitem_with_col_same|]; split; [reflexivity|];
      apply strftime_int_Forall2 in Hk;
      apply select_four in Hsel;
      destruct Hsel as (l1 & l2 & l3 & l4 & _ & Hl2 & _ & _ & ->);
      rewrite !getitem_with_col_other in Hl2 by discriminate;
      rewrite getitem_with_col_same in Hl2; inversion Hl2; subst l2;
      unfold getitem, rename, drop_duplicates in Hmd;
      cbn [columns index_len map fst snd lookup_col String.eqb Ascii.eqb
           Bool.eqb] in Hmd;
      inversion Hmd; subst md; clear Hmd;
      intros k Hin;
      destruct (Forall2_In_r _ _ _ _ Hk Hin) as (d & Hd & t & -> & ->);
      apply in_map_iff in Hd; destruct Hd as (i & Hi & _)
  end.
  apply (calendar_covers lo hi t Hmid).
  match type of Hi with
  | nth i ?l VNull = _ =>
      destruct (nth_null_or_In i l) as [E|Hin']; [congruence|];
      rewrite Hi in Hin'
  end.
  split.
  - apply Hlo. apply in_or_app. now right.
  - apply Hhi. apply in_or_app. now right.
Qed.

Lemma match_date_keys_in_date_dimension_witness :
  exists out h,
    sample_run = Ok (out, h)
    /\ exists keys calendar,
        getitem (nth (dim_match out) h empty_frame) "date_key" = Ok keys
        /\ getitem (nth (dim_date out) h empty_frame) "date_key" = Ok calendar
        /\ forall k, In k keys -> In k calendar.
Proof.
  eexists. eexists. split; [vm_compute; reflexivity|].
  apply (match_date_keys_in_date_dimension exact_scorer to_datetime_iso unique
           sample_gps_match sample_gps_training sample_wyscout_outfield
           sample_wyscout_goalkeeper sample_wyscout_matches).
  - vm_compute. reflexivity.
  - intros lo [Hin Hle]. cbn in Hin.
    unfold midnight.
    repeat (destruct Hin as [Hin|Hin];
            [try discriminate; injection Hin as <-; reflexivity|]).
    destruct Hin.
Defined.

(** With a time of day on the earliest date the join can lose a row: one GPS
    session at 23:00 on 2024-01-01 and one match at 01:00 on 2024-01-02 give
    a date table of the single day 2024-01-01. *)
Lemma time_of_day_breaks_join :
  exists out h,
    run_transform exact_scorer to_datetime_iso unique
      (mkDF 1 [("name", [VStr "Ann Lee"]); ("team_name", [VStr "FC Alpha"]);
               ("date", [VTime 1704150000000000000])])
      (mkDF 0 [("name", []); ("team_name", []); ("date", [])])
      (mkDF 0 [("player", []); ("team_name", []); ("date", [])])
      (mkDF 0 [("player", []); ("team_name", []); ("date", [])])
      (mkDF 1 [("match", [VStr "m1"]); ("team_name", [VStr "FC Alpha"]);
               ("competition", [VStr "Cup"]);
               ("date", [VTime 1704157200000000000])])
    = Ok (out, h)
    /\ getitem (nth (dim_date out) h empty_frame) "date_key"
       = Ok [VInt 20240101]
    /\ getitem (nth (dim_match out) h empty_frame) "date_key"
       = Ok [VInt 20240102].
Proof.
  eexists. eexists. split; [vm_compute; reflexivity|].
  split; reflexivity.
Qed.

(** ** What a run needs to complete *)

Lemma has_col_concat (a b d : DataFrame) (c : string) (l : list value) :
  getitem d c = Ok l ->
  concat a b = Ok d -> has_col a c \/ has_col b c.
Proof.
  intros H Hc. revert H. rewrite (getitem_concat_reindexed _ _ _ c Hc).
  unfold getitem, reindexed, has_col. simpl.
  rewrite (lookup_col_map (fun c => (col_or_null a c ++ col_or_null b c)%list)).
  rewrite mem_union_cols. intro H.
  destruct (mem c (map fst (columns a))) eqn:Ea.
  - left. destruct (mem_lookup_col _ _ Ea) as (la & Hla).
    exists la. unfold getitem. now rewrite Hla.
  - destruct (mem c (map fst (columns b))) eqn:Eb; [|discriminate].
    right. destruct (mem_lookup_col _ _ Eb) as (lb & Hlb).
    exists lb. unfold getitem. now rewrite Hlb.
Qed.

Lemma has_col_with_col_other (df : DataFrame) (c c' : string)
  (l : list value) :
  c <> c' -> has_col (with_col df c' l) c -> has_col df c.
Proof.
  intros Hne [l' Hl]. exists l'. now rewrite getitem_with_col_other in Hl.
Qed.

(** X13.  A run completes only on tables that have the columns it reads: the
    two player tables [date], [team_name] and [player]; the match table
    [match], [date], [team_name] and [competition]; and, of the two GPS
    tables, at least one each of [date], [team_name] and [name] (the other
    is filled with missing cells by the concatenation).  On any other input
    the run raises. *)
Theorem completed_run_had_columns :
  forall (scorer : string -> string -> Q)
         (to_datetime : list value -> list (option Z))
         (set_list : list value -> list value)
         (gm gt wo wg wm : DataFrame) (out : tables) (h : store),
    run_transform scorer to_datetime set_list gm gt wo wg wm = Ok (out, h) ->
    (has_col gm "date" \/ has_col gt "date")
    /\ (has_col gm "team_name" \/ has_col gt "team_name")
    /\ (has_col gm "name" \/ has_col gt "name")
    /\ (has_col wo "date" /\ has_col wo "team_name" /\ has_col wo "player")
    /\ (has_col wg "date" /\ has_col wg "team_name" /\ has_col wg "player")
    /\ (has_col wm "match" /\ has_col wm "date" /\ has_col wm "team_name"
        /\ has_col wm "competition").
Proof.
  intros scorer to_datetime set_list gm gt wo wg wm out h H.
  unfold run_transform, transform_data in H. run_step H.
  match goal with
  | Hsel : select _ _ = Ok _ |- _ =>
      apply select_four in Hsel;
      destruct Hsel as (l1 & l2 & l3 & l4 & Hl1 & _ & _ & _ & _);
      rewrite !getitem_with_col_other in Hl1 by discriminate
  end.
  repeat match goal with
  | Hg : getitem (with_col _ _ _) _ = Ok _ |- _ =>
      progress (repeat rewrite getitem_with_col_other in Hg by discriminate)
  end.
  assert (Hgps : forall c l, c <> "session_type" ->
            getitem stacked c = Ok l ->
            has_col gm c \/ has_col gt c).
  { intros c l Hc Hl. pose proof (has_col_concat _ _ _ _ _ Hl Hconcat) as Hab.
    unfold setitem_scalar in Hab.
    destruct Hab as [Hab|Hab]; [left|right];
      now apply has_col_with_col_other in Hab. }
  unfold has_col.
  repeat split;
    try (eapply Hgps; [|eassumption]; discriminate);
    eexists; eassumption.
Qed.

Lemma completed_run_had_columns_witness :
  exists out h,
    sample_run = Ok (out, h)
    /\ (has_col sample_gps_match "date" \/ has_col sample_gps_training "date")
    /\ has_col sample_wyscout_matches "competition".
Proof.
  eexists. eexists. split; [vm_compute; reflexivity|].
  pose proof (completed_run_had_columns exact_scorer to_datetime_iso unique
                sample_gps_match sample_gps_training sample_wyscout_outfield
                sample_wyscout_goalkeeper sample_wyscout_matches _ _
                ltac:(vm_compute; reflexivity)) as H.
  split; [exact (proj1 H)|].
  exact (proj2 (proj2 (proj2 (proj2 (proj2 (proj2 (proj2 (proj2 H)))))))).
Defined.

Lemma py_min_first (a b : value) (lo : Z) :
  py_min a b = VTime lo -> exists x, a = VTime x.
Proof.
  unfold py_min, time_ltb.
  destruct a as [| |s|n|x]; try (intro H; discriminate H).
  - destruct b; intro H; discriminate H.
  - destruct b; intro H; discriminate H.
  - destruct b; intro H; discriminate H.
  - destruct b; intro H; discriminate H.
  - intros _. now exists x.
Qed.

(** X14.  A run completes only when [to_datetime] keeps the length of the
    date columns, at least one GPS date parses and every date of the match
    table parses.  The two tables are not treated alike: a GPS date that
    does not parse is skipped, and the match table may have no row at all,
    but one match date that does not parse, or no parsed GPS date, makes the
    run raise. *)
Theorem completed_run_had_dates :
  forall (scorer : string -> string -> Q)
         (to_datetime : list value -> list (option Z))
         (set_list : list value -> list value)
         (gm gt wo wg wm : DataFrame) (out : tables) (h : store),
    run_transform scorer to_datetime set_list gm gt wo wg wm = Ok (out, h) ->
    (exists t,
        In (Some t)
          (to_datetime (col_or_null gm "date" ++ col_or_null gt "date")%list))
    /\ List.length
         (to_datetime (col_or_null gm "date" ++ col_or_null gt "date")%list)
       = (index_len gm + index_len gt)%nat
    /\ exists dates,
        getitem wm "date" = Ok dates
        /\ ~ In None (to_datetime dates)
        /\ List.length (to_datetime dates) = index_len wm.
Proof.
  intros scorer to_datetime set_list gm gt wo wg wm out h H.
  pose proof H as Hrun.
  unfold run_transform, transform_data in H. run_step H.
  match goal with
  | Hd : getitem stacked "date" = Ok ?raw |- _ =>
      apply (fun Hg => getitem_concat _ _ _ _ _ Hg Hconcat) in Hd;
      unfold setitem_scalar in Hd;
      rewrite !col_or_null_with_col_other in Hd by discriminate; subst raw
  end.
  repeat match goal with
  | Hl : List.length (map time_cell _) = _ |- _ => rewrite length_map in Hl
  end.
  split; [|split].
  - match goal with
    | Hg : getitem (with_col stacked "date" _) "date" = Ok ?g |- _ =>
        rewrite getitem_with_col_same in Hg; inversion Hg; subst g; clear Hg
    end.
    match goal with
    | Hr : date_range (py_min (series_min ?l) ?b) _ = Ok _ |- _ =>
        unfold date_range in Hr;
        destruct (py_min (series_min l) b) as [| |?|?|lo] eqn:Emin;
        try discriminate;
        apply py_min_first in Emin; destruct Emin as (x & Ex);
        destruct (series_min_spec l) as [(m & Hm & Hin & _)|[Hnat _]];
        [|congruence]
    end.
    apply in_map_iff in Hin. destruct Hin as ([t|] & Ht & Hin);
      [|discriminate]. now exists t.
  - match goal with
    | Hl : _ = index_len stacked |- _ =>
        rewrite (proj1 (concat_Ok _ _ _ Hconcat)) in Hl; exact Hl
    end.
  - match goal with
    | Hw : getitem wm "date" = Ok ?dates |- _ =>
        exists dates; split; [exact Hw|]; split; [|assumption];
        intro Hbad;
        exact (unparseable_match_date_never_completes scorer to_datetime
                 set_list gm gt wo wg wm dates _ Hw Hbad Hrun)
    end.
Qed.

Lemma completed_run_had_dates_witness :
  exists out h,
    sample_run = Ok (out, h)
    /\ exists t,
        In (Some t)
          (to_datetime_iso
             (col_or_null sample_gps_match "date"
              ++ col_or_null sample_gps_training "date")%list).
Proof.
  eexists. eexists. split; [vm_compute; reflexivity|].
  exact (proj1 (completed_run_had_dates exact_scorer to_datetime_iso unique
                  sample_gps_match sample_gps_training
                  sample_wyscout_outfield sample_wyscout_goalkeeper
                  sample_wyscout_matches _ _ ltac:(vm_compute; reflexivity))).
Defined.

(** ** Runs that complete *)








(** ** Runs on ready tables *)






























(** A label that names two columns stops the run at line 45: the two GPS
    tables have different labels, and [pd.concat] cannot reindex the one that
    repeats a label. *)
Lemma repeated_label_raises :
  run_transform exact_scorer to_datetime_iso unique
    sample_gps_match_repeated_label sample_gps_training
    sample_wyscout_outfield sample_wyscout_goalkeeper sample_wyscout_matches
  = Raise InvalidIndexError.
Proof.
  vm_compute. reflexivity.
Qed.




